(** * Memory updaters of deep_qa (layers/memory_updaters.py)

    A shallow embedding of [split_updater_inputs], the three updater
    classes and the [updaters] registry, followed by the properties
    established about them.

    Tensors are two-dimensional (batch, width).  A tensor carries its
    trailing width explicitly, as the tensor library does, so that the
    shape of an empty batch is still known.  Python exceptions are the
    [Raise] branch of [result]. *)

From Stdlib Require Import ZArith String List Lia SpecFloat.
From stdpp Require Import base option list strings gmap.

Local Open Scope string_scope.
Local Open Scope Z_scope.

(** ** Exceptions and results *)

Inductive exn : Type :=
  | KeyError (key : string)
  | TypeError
  | ValueError
  | AssertionError
  | OverflowError
  | ZeroDivisionError
  | ConfigurationError.

Inductive result (A : Type) : Type :=
  | Ok (a : A)
  | Raise (e : exn).
Arguments Ok {A} a.
Arguments Raise {A} e.

Definition rbind {A B} (m : result A) (f : A -> result B) : result B :=
  match m with
  | Ok a => f a
  | Raise e => Raise e
  end.

Definition is_ok {A} (m : result A) : bool :=
  match m with Ok _ => true | Raise _ => false end.

(** ** Python slices

    [l[start:stop]] with step 1.  An absent bound is [None]; a negative
    bound counts from the end; both are clipped to the length. *)

Definition slice_index (len i : Z) : Z :=
  if i <? 0 then Z.max (i + len) 0 else Z.min i len.

Definition slice_bounds (len : nat) (start stop : option Z) : nat * nat :=
  let n := Z.of_nat len in
  (Z.to_nat (from_option (slice_index n) 0 start),
   Z.to_nat (from_option (slice_index n) n stop)).

Definition py_slice {A} (l : list A) (start stop : option Z) : list A :=
  let '(lo, hi) := slice_bounds (length l) start stop in
  take (hi - lo)%nat (drop lo l).

(** ** Tensors *)

Record tensor (T : Type) : Type := Tensor {
  ncols : nat;
  rows : list (list T)
}.
Arguments Tensor {T} ncols rows.
Arguments ncols {T} t.
Arguments rows {T} t.

Definition nrows {T} (t : tensor T) : nat := length (rows t).

(** Every row has the declared width. *)
Definition wf {T} (t : tensor T) : Prop :=
  Forall (fun r => length r = ncols t) (rows t).

Definition shape {T} (t : tensor T) : Z * Z :=
  (Z.of_nat (nrows t), Z.of_nat (ncols t)).

(** The element of a tensor at row [i], column [j]. *)
Definition entry {T} (t : tensor T) (i j : nat) : option T :=
  rows t !! i ≫= fun r => r !! j.

(** [x[:, start:stop]] *)
Definition slice_cols {T} (x : tensor T) (start stop : option Z) : tensor T :=
  {| ncols := (let '(lo, hi) := slice_bounds (ncols x) start stop in (hi - lo)%nat);
     rows := map (fun r => py_slice r start stop) (rows x) |}.

(** The tensor backend: the numeric operations on one element, and what
    [+] does on two tensors that are not of one shape.  Backends differ
    there: numpy and TensorFlow stretch an axis of extent 1, Theano does
    not; the updaters leave it to the backend. *)
Class Backend (T : Type) : Type := {
  zero : T;
  add : T -> T -> T;
  mul : T -> T -> T;
  mismatch_error : exn;
  add_irregular : tensor T -> tensor T -> result (tensor T)
}.

(** Integer elements, for exact examples, on a backend that stretches no
    axis. *)
#[export] Instance Z_backend : Backend Z :=
  {| zero := 0; add := Z.add; mul := Z.mul;
     mismatch_error := ValueError;
     add_irregular := fun _ _ => Raise ValueError |}.

(** IEEE 754 binary32 elements, the default float type of the tensors:
    24 bits of precision, maximal exponent 128. *)
Definition binary32_backend : Backend spec_float :=
  {| zero := S754_zero false; add := SFadd 24 128; mul := SFmul 24 128;
     mismatch_error := ValueError;
     add_irregular := fun _ _ => Raise ValueError |}.

(** The sum of two tensors of one shape. *)
Definition add_rows `{Backend T} (a c : tensor T) : tensor T :=
  {| ncols := ncols a; rows := zip_with (zip_with add) (rows a) (rows c) |}.

(** [a + c] on tensors.  Two tensors of one shape and of positive width
    are added element by element.  Two tensors with the same number of
    rows whose widths differ and are both at least 2 cannot be added on
    any backend: the addition raises the shape error of the backend.  In
    every other case, that is a width 0 or 1 or different numbers of rows,
    the result is the one of the backend. *)
Definition tensor_add `{Backend T} (a c : tensor T) : result (tensor T) :=
  if decide (nrows a = nrows c /\ ncols a = ncols c /\ ncols a <> 0%nat)
  then Ok (add_rows a c)
  else if decide (nrows a = nrows c /\ (2 <= ncols a)%nat /\ (2 <= ncols c)%nat)
  then Raise mismatch_error
  else add_irregular a c.

(** ** split_updater_inputs *)

Definition split_updater_inputs {T} (x : tensor T) (encoding_dim : Z)
  : tensor T * tensor T * tensor T :=
  let sentence_encoding := slice_cols x None (Some encoding_dim) in
  let current_memory := slice_cols x (Some encoding_dim) (Some (2 * encoding_dim)) in
  let attended_knowledge := slice_cols x (Some (2 * encoding_dim)) None in
  (sentence_encoding, current_memory, attended_knowledge).

(** ** Python numbers

    [a / c] on two ints is the float nearest to the quotient (binary64,
    ties to even); it raises when [c] is 0 and when the quotient is too
    large for a float.  [int(f)] drops the fractional part of a float. *)

Definition Z2SF (z : Z) : spec_float :=
  match z with
  | Z0 => S754_zero false
  | Zpos p => S754_finite false p 0
  | Zneg p => S754_finite true p 0
  end.

Definition py_truediv (a c : Z) : result spec_float :=
  if decide (c = 0) then Raise ZeroDivisionError
  else match SFdiv 53 1024 (Z2SF a) (Z2SF c) with
       | S754_infinity _ => Raise OverflowError
       | f => Ok f
       end.

Definition py_int (f : spec_float) : result Z :=
  match f with
  | S754_zero _ => Ok 0
  | S754_finite s m e => Ok (cond_Zopp s (Z.shiftl (Zpos m) e))
  | S754_infinity _ => Raise OverflowError
  | S754_nan => Raise ValueError
  end.

(** [(input_shape[0], int(input_shape[1] / 3))]: the batch entry is passed
    through untouched, whatever it is.  The three classes share this
    body. *)
Definition output_shape_third {B} (input_shape : B * Z) : result (B * Z) :=
  rbind (py_truediv (snd input_shape) 3) (fun quotient =>
  rbind (py_int quotient) (fun width =>
  Ok (fst input_shape, width))).

(** ** The layer framework

    [Layer] and [Dense] are imported from keras.  What the updaters use of
    them is taken as an interface: constructors, the configuration they
    serialise and the [output_dim] attribute of a [Dense].  Configurations
    and keyword arguments are Python dicts with string keys. *)

Inductive pyval : Type :=
  | PInt (z : Z)
  | PStr (s : string)
  | PBool (b : bool)
  | PNone.

Class Keras : Type := {
  Layer : Type;
  Layer_init : string -> gmap string pyval -> result Layer;
  Layer_get_config : Layer -> gmap string pyval;
  Dense : Type;
  Dense_init : Z -> string -> gmap string pyval -> result Dense;
  Dense_get_config : Dense -> gmap string pyval;
  Dense_output_dim : Dense -> Z
}.

(** [config.update(base_config)] on a dict [config]: the entries of
    [base_config] win. *)
Definition dict_update (config base_config : gmap string pyval) : gmap string pyval :=
  base_config ∪ config.

(** *** Dense.call

    The learned parameters of a dense layer, passed explicitly to [call]:
    a weight matrix, a bias vector and the activation function. *)

Record dense_params (T : Type) : Type := DenseParams {
  W : tensor T;
  b : list T;
  activation : tensor T -> tensor T
}.
Arguments DenseParams {T} W b activation.
Arguments W {T} d.
Arguments b {T} d.
Arguments activation {T} d.

(** One row of the matrix product [K.dot(x, W)]. *)
Definition row_dot `{Backend T} (w : tensor T) (r : list T) : list T :=
  foldr (fun aw acc => zip_with add (map (mul (fst aw)) (snd aw)) acc)
        (replicate (ncols w) zero) (zip r (rows w)).

Definition dot `{Backend T} (x w : tensor T) : result (tensor T) :=
  if decide (ncols x = nrows w)
  then Ok {| ncols := ncols w; rows := map (row_dot w) (rows x) |}
  else Raise mismatch_error.

(** The bias vector added to every row. *)
Definition add_bias `{Backend T} (x : tensor T) (bias : list T)
  : result (tensor T) :=
  if decide (ncols x = length bias)
  then Ok {| ncols := ncols x;
             rows := map (fun r => zip_with add r bias) (rows x) |}
  else Raise mismatch_error.

(** Modelled from the spec: [Dense.call] of keras, which is not under
    src/: the affine transform of the input, that is the input times the
    weight matrix plus the bias vector, followed by the activation
    function. *)
Definition Dense_call `{Backend T} (p : dense_params T) (x : tensor T)
  : result (tensor T) :=
  rbind (dot x (W p)) (fun output =>
  rbind (add_bias output (b p)) (fun output =>
  Ok (activation p output))).

(** An activation keeps the shape of its argument. *)
Definition preserves_shape {T} (f : tensor T -> tensor T) : Prop :=
  forall t, wf t -> wf (f t) /\ nrows (f t) = nrows t /\ ncols (f t) = ncols t.

(** The parameters of a dense layer from width [n] to width [d]. *)
Definition dense_params_ok {T} (p : dense_params T) (n d : nat) : Prop :=
  wf (W p) /\ nrows (W p) = n /\ ncols (W p) = d /\ length (b p) = d /\
  preserves_shape (activation p).

(** ** SumMemoryUpdater *)

Module SumMemoryUpdater.

Record t `{Keras} : Type := Make {
  base : Layer;
  encoding_dim : Z;
  mode : string
}.

Definition default_name : string := "sum_memory_updater".

Definition init `{Keras} (encoding_dim : Z) (name : string)
    (kwargs : gmap string pyval) : result t :=
  rbind (Layer_init name kwargs) (fun base =>
  Ok {| base := base; encoding_dim := encoding_dim; mode := "sum" |}).

Definition call `{Keras} `{Backend T} (self : t) (x : tensor T)
  : result (tensor T) :=
  let '(_, current_memory, attended_knowledge) :=
    split_updater_inputs x (encoding_dim self) in
  tensor_add current_memory attended_knowledge.

Definition get_output_shape_for `{Keras} {B} (self : t) (input_shape : B * Z)
  : result (B * Z) :=
  output_shape_third input_shape.

Definition get_config `{Keras} (self : t) : gmap string pyval :=
  let base_config := Layer_get_config (base self) in
  let config : gmap string pyval := {[ "encoding_dim" := PInt (encoding_dim self) ]} in
  dict_update config base_config.

End SumMemoryUpdater.

(** ** DenseConcatNoQuestionMemoryUpdater *)

Module DenseConcatNoQuestionMemoryUpdater.

Record t `{Keras} : Type := Make {
  encoding_dim : Z;
  dense : Dense
}.

Definition default_name : string := "dense_concat_memory_updater".

Definition init `{Keras} (encoding_dim : Z) (name : string)
    (kwargs : gmap string pyval) : result t :=
  rbind (Dense_init encoding_dim name kwargs) (fun dense =>
  Ok {| encoding_dim := encoding_dim; dense := dense |}).

Definition call `{Keras} `{Backend T} (self : t) (p : dense_params T)
    (x : tensor T) : result (tensor T) :=
  let x := slice_cols x (Some (encoding_dim self)) None in
  Dense_call p x.

Definition get_output_shape_for `{Keras} {B} (self : t) (input_shape : B * Z)
  : result (B * Z) :=
  output_shape_third input_shape.

Definition get_config `{Keras} (self : t) : gmap string pyval :=
  let base_config := Dense_get_config (dense self) in
  let config : gmap string pyval :=
    {[ "encoding_dim" := PInt (Dense_output_dim (dense self)) ]} in
  dict_update config base_config.

End DenseConcatNoQuestionMemoryUpdater.

(** ** DenseConcatMemoryUpdater

    Only [__init__] and [get_output_shape_for] are defined by the class;
    [call] and [get_config] are those of [Dense]. *)

Module DenseConcatMemoryUpdater.

Record t `{Keras} : Type := Make {
  encoding_dim : Z;
  dense : Dense
}.

Definition default_name : string := "dense_concat_memory_updater".

Definition init `{Keras} (encoding_dim : Z) (name : string)
    (kwargs : gmap string pyval) : result t :=
  rbind (Dense_init encoding_dim name kwargs) (fun dense =>
  Ok {| encoding_dim := encoding_dim; dense := dense |}).

Definition call `{Keras} `{Backend T} (self : t) (p : dense_params T)
    (x : tensor T) : result (tensor T) :=
  Dense_call p x.

Definition get_output_shape_for `{Keras} {B} (self : t) (input_shape : B * Z)
  : result (B * Z) :=
  output_shape_third input_shape.

Definition get_config `{Keras} (self : t) : gmap string pyval :=
  Dense_get_config (dense self).

End DenseConcatMemoryUpdater.

(** ** The registry

    An [OrderedDict]: an association list in insertion order; assigning to
    a key that is present replaces the value in place. *)

Inductive updater_class : Type :=
  | DenseConcatMemoryUpdater
  | SumMemoryUpdater
  | DenseConcatNoQuestionMemoryUpdater.

Definition OrderedDict (V : Type) : Type := list (string * V).

Fixpoint od_setitem {V} (k : string) (v : V) (d : OrderedDict V) : OrderedDict V :=
  match d with
  | [] => [(k, v)]
  | (k', v') :: d' =>
      if decide (k = k') then (k, v) :: d' else (k', v') :: od_setitem k v d'
  end.

Fixpoint od_getitem {V} (d : OrderedDict V) (k : string) : result V :=
  match d with
  | [] => Raise (KeyError k)
  | (k', v) :: d' => if decide (k = k') then Ok v else od_getitem d' k
  end.

Definition od_keys {V} (d : OrderedDict V) : list string := map fst d.

Definition updaters : OrderedDict updater_class :=
  od_setitem "dense_concat_no_question" DenseConcatNoQuestionMemoryUpdater
    (od_setitem "sum" SumMemoryUpdater
      (od_setitem "dense_concat" DenseConcatMemoryUpdater [])).

(** An instance of one of the three classes. *)
Inductive updater `{Keras} : Type :=
  | USum (u : SumMemoryUpdater.t)
  | UDenseConcat (u : DenseConcatMemoryUpdater.t)
  | UDenseConcatNoQuestion (u : DenseConcatNoQuestionMemoryUpdater.t).

(** Calling a class object with [encoding_dim], [name] and the remaining
    keyword arguments. *)
Definition construct `{Keras} (cls : updater_class) (encoding_dim : Z)
    (name : string) (kwargs : gmap string pyval) : result updater :=
  match cls with
  | DenseConcatMemoryUpdater =>
      rbind (DenseConcatMemoryUpdater.init encoding_dim name kwargs)
            (fun u => Ok (UDenseConcat u))
  | SumMemoryUpdater =>
      rbind (SumMemoryUpdater.init encoding_dim name kwargs)
            (fun u => Ok (USum u))
  | DenseConcatNoQuestionMemoryUpdater =>
      rbind (DenseConcatNoQuestionMemoryUpdater.init encoding_dim name kwargs)
            (fun u => Ok (UDenseConcatNoQuestion u))
  end.

Definition default_name (cls : updater_class) : string :=
  match cls with
  | DenseConcatMemoryUpdater => DenseConcatMemoryUpdater.default_name
  | SumMemoryUpdater => SumMemoryUpdater.default_name
  | DenseConcatNoQuestionMemoryUpdater =>
      DenseConcatNoQuestionMemoryUpdater.default_name
  end.

Definition get_config `{Keras} (u : updater) : gmap string pyval :=
  match u with
  | USum u => SumMemoryUpdater.get_config u
  | UDenseConcat u => DenseConcatMemoryUpdater.get_config u
  | UDenseConcatNoQuestion u => DenseConcatNoQuestionMemoryUpdater.get_config u
  end.

(** Modelled from the spec: the reconstruction of an updater from its
    serialised mapping, which is keras' [from_config] and not under src/.
    It calls the class with the entries of the mapping as keyword
    arguments: the entry [encoding_dim] binds the required parameter
    of [__init__] (its absence is a [TypeError]), the entry [name] the
    parameter [name], and the other entries are the remaining keyword arguments. *)
Definition from_config `{Keras} (cls : updater_class)
    (config : gmap string pyval) : result updater :=
  match config !! "encoding_dim" with
  | Some (PInt d) =>
      let kwargs := delete "name" (delete "encoding_dim" config) in
      match config !! "name" with
      | Some (PStr n) => construct cls d n kwargs
      | Some _ => Raise TypeError
      | None => construct cls d (default_name cls) kwargs
      end
  | Some _ => Raise TypeError
  | None => Raise TypeError
  end.

(** ** A model of the framework

    An instance of the interface [Keras], for closed examples: the parts
    of keras' [Layer] and [Dense] that are not under src/, reduced to the
    configuration entries the spec names: the layer's name and trainable
    flag, and the width, the weight-initialisation policy and the
    activation of the affine transform. *)

Module KerasModel.

Record layer : Type := MkLayer {
  l_name : string;
  l_trainable : bool
}.

Definition layer_keys : gset string := {[ "trainable" ]}.

(** Modelled from the spec: the constructor of keras' [Layer], which is
    not under src/; it takes the label [name] and refuses keyword
    arguments it does not know. *)
Definition layer_init (name : string) (kwargs : gmap string pyval)
  : result layer :=
  if decide (dom kwargs ⊆ layer_keys) then
    match kwargs !! "trainable" with
    | Some (PBool t) => Ok {| l_name := name; l_trainable := t |}
    | Some _ => Raise TypeError
    | None => Ok {| l_name := name; l_trainable := true |}
    end
  else Raise AssertionError.

(** Modelled from the spec: the configuration mapping of keras' [Layer],
    which is not under src/. *)
Definition layer_get_config (l : layer) : gmap string pyval :=
  {[ "name" := PStr (l_name l); "trainable" := PBool (l_trainable l) ]}.

Record dense : Type := MkDense {
  d_layer : layer;
  d_output_dim : Z;
  d_init : string;
  d_activation : string
}.

Definition str_arg (kwargs : gmap string pyval) (k default : string)
  : result string :=
  match kwargs !! k with
  | Some (PStr s) => Ok s
  | Some _ => Raise TypeError
  | None => Ok default
  end.

(** Modelled from the spec: the constructor of keras' [Dense], which is
    not under src/.  Its first parameter is [output_dim], so passing
    [output_dim] again by keyword is a [TypeError]. *)
Definition dense_init (output_dim : Z) (name : string)
    (kwargs : gmap string pyval) : result dense :=
  if decide (is_Some (kwargs !! "output_dim")) then Raise TypeError
  else
    rbind (str_arg kwargs "init" "glorot_uniform") (fun i =>
    rbind (str_arg kwargs "activation" "linear") (fun a =>
    rbind (layer_init name (delete "init" (delete "activation" kwargs))) (fun l =>
    Ok {| d_layer := l; d_output_dim := output_dim;
          d_init := i; d_activation := a |}))).

(** Modelled from the spec: the configuration mapping of keras' [Dense],
    which is not under src/: the parameters of the affine transform on
    top of the configuration of the layer. *)
Definition dense_get_config (d : dense) : gmap string pyval :=
  dict_update
    {[ "output_dim" := PInt (d_output_dim d);
       "init" := PStr (d_init d);
       "activation" := PStr (d_activation d) ]}
    (layer_get_config (d_layer d)).

Definition keras : Keras :=
  {| Layer := layer;
     Layer_init := layer_init;
     Layer_get_config := layer_get_config;
     Dense := dense;
     Dense_init := dense_init;
     Dense_get_config := dense_get_config;
     Dense_output_dim := d_output_dim |}.

End KerasModel.

(** ** Stacking tensors

    Used to state how the updaters act on parts of their input. *)

(** Two batches of one width, one after the other. *)
Definition vstack {T} (a c : tensor T) : tensor T :=
  {| ncols := ncols a; rows := rows a ++ rows c |}.

(** Two tensors with the same rows count, side by side: the columns of [a]
    followed by the columns of [c]. *)
Definition hstack {T} (a c : tensor T) : tensor T :=
  {| ncols := ncols a + ncols c; rows := zip_with app (rows a) (rows c) |}.

(** * Properties *)

(** ** Slices *)

Lemma slice_bounds_le (len : nat) (start stop : option Z) :
  (snd (slice_bounds len start stop) <= len)%nat.
Proof.
  unfold slice_bounds, slice_index; simpl.
  destruct stop as [e|]; simpl; [|lia].
  destruct (Z.ltb_spec e 0); lia.
Qed.

Lemma length_py_slice {A} (l : list A) (start stop : option Z) :
  length (py_slice l start stop) =
  (snd (slice_bounds (length l) start stop) -
   fst (slice_bounds (length l) start stop))%nat.
Proof.
  unfold py_slice.
  pose proof (slice_bounds_le (length l) start stop) as Hle.
  destruct (slice_bounds (length l) start stop) as [lo hi]; simpl in *.
  rewrite length_take, length_drop. lia.
Qed.

Lemma slice_cols_wf {T} (x : tensor T) (start stop : option Z) :
  wf x -> wf (slice_cols x start stop).
Proof.
  unfold wf, slice_cols; simpl. intros Hx.
  apply Forall_map. eapply Forall_impl; [exact Hx|].
  intros r Hr; simpl in *. rewrite length_py_slice, Hr. reflexivity.
Qed.

Lemma slice_cols_nrows {T} (x : tensor T) (start stop : option Z) :
  nrows (slice_cols x start stop) = nrows x.
Proof. unfold nrows, slice_cols; simpl. apply length_map. Qed.

Lemma slice_bounds_nonneg (len : nat) (a c : Z) :
  0 <= a -> 0 <= c ->
  slice_bounds len (Some a) (Some c) =
  (Nat.min (Z.to_nat a) len, Nat.min (Z.to_nat c) len).
Proof.
  intros Ha Hc. unfold slice_bounds, slice_index; simpl.
  destruct (Z.ltb_spec a 0); [lia|]. destruct (Z.ltb_spec c 0); [lia|].
  f_equal; lia.
Qed.

Lemma slice_bounds_from (len : nat) (a : Z) :
  0 <= a -> slice_bounds len (Some a) None = (Nat.min (Z.to_nat a) len, len).
Proof.
  intros Ha. unfold slice_bounds, slice_index; simpl.
  destruct (Z.ltb_spec a 0); [lia|]. f_equal; lia.
Qed.

Lemma slice_bounds_to (len : nat) (c : Z) :
  0 <= c -> slice_bounds len None (Some c) = (0%nat, Nat.min (Z.to_nat c) len).
Proof.
  intros Hc. unfold slice_bounds, slice_index; simpl.
  destruct (Z.ltb_spec c 0); [lia|]. f_equal; lia.
Qed.

Lemma py_slice_between {A} (l : list A) (a c : Z) :
  0 <= a -> 0 <= c ->
  py_slice l (Some a) (Some c) =
  take (Z.to_nat c - Z.to_nat a) (drop (Z.to_nat a) l).
Proof.
  intros Ha Hc. unfold py_slice. rewrite slice_bounds_nonneg by done.
  destruct (decide (Z.to_nat a <= length l)%nat) as [Hle|Hgt].
  - rewrite (Nat.min_l _ _ Hle).
    destruct (decide (Z.to_nat c <= length l)%nat) as [Hc'|Hc'].
    + by rewrite (Nat.min_l _ _ Hc').
    + rewrite Nat.min_r by lia.
      rewrite !take_ge; [done| |]; rewrite length_drop; lia.
  - rewrite (Nat.min_r (Z.to_nat a)) by lia.
    rewrite !drop_ge by lia. by rewrite !take_nil.
Qed.

Lemma py_slice_from {A} (l : list A) (a : Z) :
  0 <= a -> py_slice l (Some a) None = drop (Z.to_nat a) l.
Proof.
  intros Ha. unfold py_slice. rewrite slice_bounds_from by done.
  destruct (decide (Z.to_nat a <= length l)%nat) as [Hle|Hgt].
  - rewrite (Nat.min_l _ _ Hle). apply take_ge. rewrite length_drop. lia.
  - rewrite Nat.min_r by lia. rewrite !drop_ge by lia. apply take_nil.
Qed.

Lemma py_slice_to {A} (l : list A) (c : Z) :
  0 <= c -> py_slice l None (Some c) = take (Z.to_nat c) l.
Proof.
  intros Hc. unfold py_slice. rewrite slice_bounds_to by done.
  rewrite drop_0, Nat.sub_0_r.
  destruct (decide (Z.to_nat c <= length l)%nat) as [Hle|Hgt].
  - by rewrite (Nat.min_l _ _ Hle).
  - rewrite Nat.min_r by lia. rewrite !take_ge; [done|lia|lia].
Qed.

Lemma entry_slice_cols {T} (x : tensor T) (start stop : option Z) (i : nat) :
  rows (slice_cols x start stop) !! i =
  (fun r => py_slice r start stop) <$> rows x !! i.
Proof. unfold slice_cols; simpl. apply list_lookup_fmap. Qed.

Lemma entry_slice_between {T} (x : tensor T) (a c : Z) (i j : nat) :
  0 <= a -> 0 <= c -> (j < Z.to_nat c - Z.to_nat a)%nat ->
  entry (slice_cols x (Some a) (Some c)) i j = entry x i (Z.to_nat a + j).
Proof.
  intros Ha Hc Hj. unfold entry. rewrite entry_slice_cols.
  destruct (rows x !! i) as [r|]; simpl; [|done].
  rewrite py_slice_between, lookup_take, lookup_drop by done.
  by rewrite decide_True.
Qed.

Lemma entry_slice_from {T} (x : tensor T) (a : Z) (i j : nat) :
  0 <= a ->
  entry (slice_cols x (Some a) None) i j = entry x i (Z.to_nat a + j).
Proof.
  intros Ha. unfold entry. rewrite entry_slice_cols.
  destruct (rows x !! i) as [r|]; simpl; [|done].
  by rewrite py_slice_from, lookup_drop.
Qed.

Lemma entry_slice_to {T} (x : tensor T) (c : Z) (i j : nat) :
  0 <= c -> (j < Z.to_nat c)%nat ->
  entry (slice_cols x None (Some c)) i j = entry x i j.
Proof.
  intros Hc Hj. unfold entry. rewrite entry_slice_cols.
  destruct (rows x !! i) as [r|]; simpl; [|done].
  rewrite py_slice_to, lookup_take by done. by rewrite decide_True.
Qed.

Lemma ncols_slice_between {T} (x : tensor T) (a c : Z) :
  0 <= a -> 0 <= c ->
  ncols (slice_cols x (Some a) (Some c)) =
  (Nat.min (Z.to_nat c) (ncols x) - Nat.min (Z.to_nat a) (ncols x))%nat.
Proof. intros Ha Hc. unfold slice_cols; cbn [ncols]. by rewrite slice_bounds_nonneg. Qed.

Lemma ncols_slice_from {T} (x : tensor T) (a : Z) :
  0 <= a ->
  ncols (slice_cols x (Some a) None) = (ncols x - Nat.min (Z.to_nat a) (ncols x))%nat.
Proof. intros Ha. unfold slice_cols; cbn [ncols]. by rewrite slice_bounds_from. Qed.

Lemma ncols_slice_to {T} (x : tensor T) (c : Z) :
  0 <= c ->
  ncols (slice_cols x None (Some c)) = Nat.min (Z.to_nat c) (ncols x).
Proof.
  intros Hc. unfold slice_cols; cbn [ncols]. rewrite slice_bounds_to by done. lia.
Qed.

(** ** The input splitter *)

(** C5: on a well-formed batch of trailing width exactly 3D, with D > 0,
    [split_updater_inputs] returns three tensors of width D with the rows
    of the input, whose columns are the columns [0,D), [D,2D) and [2D,3D)
    of the input, in that order.  The function is a pure function of its
    two arguments: it reads [x] and builds three new tensors. *)
Theorem split_updater_inputs_thirds {T} (x : tensor T) (D : Z) :
  0 < D -> wf x -> Z.of_nat (ncols x) = 3 * D ->
  exists q m k : tensor T,
    split_updater_inputs x D = (q, m, k) /\
    (ncols q = Z.to_nat D /\ ncols m = Z.to_nat D /\ ncols k = Z.to_nat D) /\
    (wf q /\ wf m /\ wf k) /\
    (nrows q = nrows x /\ nrows m = nrows x /\ nrows k = nrows x) /\
    forall i j : nat, (j < Z.to_nat D)%nat ->
      entry q i j = entry x i j /\
      entry m i j = entry x i (Z.to_nat D + j) /\
      entry k i j = entry x i (2 * Z.to_nat D + j).
Proof.
  intros HD Hwf Hw. unfold split_updater_inputs.
  do 3 eexists. split; [reflexivity|].
  split; [|split; [|split]].
  - rewrite ncols_slice_to, ncols_slice_between, ncols_slice_from by lia. lia.
  - auto using slice_cols_wf.
  - by rewrite !slice_cols_nrows.
  - intros i j Hj.
    rewrite entry_slice_to, entry_slice_between, entry_slice_from by lia.
    repeat split. f_equal. lia.
Qed.

Lemma split_updater_inputs_thirds_witness :
  exists q m k : tensor Z,
    split_updater_inputs (Tensor 6%nat [[1; 2; 3; 4; 5; 6]]) 2 = (q, m, k) /\
    q = Tensor 2%nat [[1; 2]] /\ m = Tensor 2%nat [[3; 4]] /\
    k = Tensor 2%nat [[5; 6]].
Proof.
  destruct (split_updater_inputs_thirds (Tensor 6%nat [[1; 2; 3; 4; 5; 6]]) 2)
    as (q & m & k & Heq & _).
  - lia.
  - repeat constructor.
  - reflexivity.
  - exists q, m, k. split; [exact Heq|].
    vm_compute in Heq. by inversion Heq.
Defined.

(** ** Elementwise addition *)

Lemma tensor_add_same_shape `{Backend T} (a c : tensor T) :
  nrows a = nrows c -> ncols a = ncols c -> ncols a <> 0%nat ->
  tensor_add a c = Ok (add_rows a c).
Proof. intros Hn Hm Hpos. unfold tensor_add. by rewrite decide_True. Qed.

Lemma tensor_add_mismatch `{Backend T} (a c : tensor T) :
  nrows a = nrows c -> ncols a <> ncols c ->
  (2 <= ncols a)%nat -> (2 <= ncols c)%nat ->
  tensor_add a c = Raise mismatch_error.
Proof.
  intros Hn Hm Ha Hc. unfold tensor_add.
  rewrite decide_False by tauto. by rewrite decide_True.
Qed.

Lemma add_rows_wf `{Backend T} (a c : tensor T) :
  ncols a = ncols c -> wf a -> wf c -> wf (add_rows a c).
Proof.
  intros Hm Ha Hc. unfold wf, add_rows in *; simpl.
  apply Forall_lookup. intros i r Hr.
  apply lookup_zip_with_Some in Hr as (ra & rc & -> & Hra & Hrc).
  rewrite length_zip_with.
  rewrite (proj1 (Forall_lookup _ _) Ha _ _ Hra).
  rewrite (proj1 (Forall_lookup _ _) Hc _ _ Hrc). lia.
Qed.

Lemma add_rows_nrows `{Backend T} (a c : tensor T) :
  nrows a = nrows c -> nrows (add_rows a c) = nrows a.
Proof.
  unfold nrows, add_rows; simpl. intros Hn. rewrite length_zip_with. lia.
Qed.

Lemma entry_add_rows `{Backend T} (a c : tensor T) (i j : nat) :
  entry (add_rows a c) i j =
  entry a i j ≫= fun u => entry c i j ≫= fun v => Some (add u v).
Proof.
  unfold entry, add_rows; simpl. rewrite lookup_zip_with.
  destruct (rows a !! i) as [ra|]; simpl; [|done].
  destruct (rows c !! i) as [rc|]; simpl.
  - apply lookup_zip_with.
  - by destruct (ra !! j).
Qed.

Lemma entry_is_Some {T} (x : tensor T) (i j : nat) :
  wf x -> (i < nrows x)%nat -> (j < ncols x)%nat -> is_Some (entry x i j).
Proof.
  intros Hwf Hi Hj. unfold entry.
  destruct (lookup_lt_is_Some_2 (rows x) i Hi) as [r Hr]. rewrite Hr; simpl.
  apply lookup_lt_is_Some_2.
  by rewrite (proj1 (Forall_lookup _ _) Hwf _ _ Hr).
Qed.

Lemma slice_cols_open_end {T} (x : tensor T) (a c : Z) :
  wf x -> Z.of_nat (ncols x) <= c ->
  slice_cols x (Some a) None = slice_cols x (Some a) (Some c).
Proof.
  intros Hwf Hc.
  assert (Hb : forall n : nat, (n <= ncols x)%nat ->
            slice_bounds n (Some a) None = slice_bounds n (Some a) (Some c)).
  { intros n Hn. unfold slice_bounds, slice_index; simpl.
    destruct (Z.ltb_spec c 0); [lia|]. f_equal. lia. }
  unfold slice_cols. f_equal.
  - by rewrite Hb.
  - apply Forall_fmap_ext. eapply Forall_impl; [exact Hwf|].
    intros r Hr; simpl in *. unfold py_slice. rewrite Hb by lia. done.
Qed.

(** ** The sum updater *)

Lemma sum_call_exact `{Keras} `{Backend T} (self : SumMemoryUpdater.t)
    (x : tensor T) :
  let D := SumMemoryUpdater.encoding_dim self in
  0 < D -> wf x -> Z.of_nat (ncols x) = 3 * D ->
  SumMemoryUpdater.call self x =
  Ok (add_rows (slice_cols x (Some D) (Some (2 * D)))
               (slice_cols x (Some (2 * D)) (Some (3 * D)))).
Proof.
  intros D HD Hwf Hw. unfold SumMemoryUpdater.call, split_updater_inputs.
  fold D. rewrite (slice_cols_open_end x (2 * D) (3 * D)) by (done || lia).
  apply tensor_add_same_shape.
  - by rewrite !slice_cols_nrows.
  - rewrite !ncols_slice_between by lia. lia.
  - rewrite ncols_slice_between by lia. lia.
Qed.

Lemma sum_call_shape `{Keras} `{Backend T} (self : SumMemoryUpdater.t)
    (x : tensor T) :
  let D := SumMemoryUpdater.encoding_dim self in
  0 < D -> wf x -> Z.of_nat (ncols x) = 3 * D ->
  exists out : tensor T,
    SumMemoryUpdater.call self x = Ok out /\ wf out /\
    nrows out = nrows x /\ ncols out = Z.to_nat D.
Proof.
  intros D HD Hwf Hw. rewrite sum_call_exact by done. fold D.
  assert (Hm : ncols (slice_cols x (Some D) (Some (2 * D))) = Z.to_nat D)
    by (rewrite ncols_slice_between by lia; lia).
  assert (Hk : ncols (slice_cols x (Some (2 * D)) (Some (3 * D))) = Z.to_nat D)
    by (rewrite ncols_slice_between by lia; lia).
  eexists. split; [reflexivity|]. repeat split.
  - apply add_rows_wf; [congruence|by apply slice_cols_wf..].
  - rewrite add_rows_nrows by (by rewrite !slice_cols_nrows).
    apply slice_cols_nrows.
  - exact Hm.
Qed.

(** C1: for an encoding dimension D > 0 and a well-formed batch of trailing
    width exactly 3D, the sum updater returns a tensor, which is the sum
    [x[:, D:2D] + x[:, 2D:3D]]; it has the rows of the input and width D,
    and its element at row i and column j is the sum of the input's
    elements at columns D+j and 2D+j of row i. *)
Theorem sum_updater_adds_slices `{Keras} `{Backend T}
    (self : SumMemoryUpdater.t) (x : tensor T) :
  let D := SumMemoryUpdater.encoding_dim self in
  0 < D -> wf x -> Z.of_nat (ncols x) = 3 * D ->
  exists out : tensor T,
    SumMemoryUpdater.call self x = Ok out /\
    tensor_add (slice_cols x (Some D) (Some (2 * D)))
               (slice_cols x (Some (2 * D)) (Some (3 * D))) = Ok out /\
    nrows out = nrows x /\ ncols out = Z.to_nat D /\ wf out /\
    forall i j : nat, (i < nrows x)%nat -> (j < Z.to_nat D)%nat ->
      exists u v : T,
        entry x i (Z.to_nat D + j) = Some u /\
        entry x i (2 * Z.to_nat D + j) = Some v /\
        entry out i j = Some (add u v).
Proof.
  intros D HD Hwf Hw.
  set (m := slice_cols x (Some D) (Some (2 * D))).
  set (k := slice_cols x (Some (2 * D)) (Some (3 * D))).
  assert (Hmc : ncols m = Z.to_nat D)
    by (unfold m; rewrite ncols_slice_between by lia; lia).
  assert (Hkc : ncols k = Z.to_nat D)
    by (unfold k; rewrite ncols_slice_between by lia; lia).
  assert (Hmw : wf m) by by apply slice_cols_wf.
  assert (Hkw : wf k) by by apply slice_cols_wf.
  assert (Hmn : nrows m = nrows x) by apply slice_cols_nrows.
  assert (Hkn : nrows k = nrows x) by apply slice_cols_nrows.
  exists (add_rows m k). repeat split.
  - by apply sum_call_exact.
  - apply tensor_add_same_shape; [congruence|congruence|lia].
  - rewrite add_rows_nrows; congruence.
  - exact Hmc.
  - apply add_rows_wf; congruence.
  - intros i j Hi Hj.
    destruct (entry_is_Some x i (Z.to_nat D + j)) as [u Hu]; [done|done|lia|].
    destruct (entry_is_Some x i (2 * Z.to_nat D + j)) as [v Hv]; [done|done|lia|].
    exists u, v. repeat split; [done|done|].
    rewrite entry_add_rows. unfold m, k.
    rewrite !entry_slice_between by lia.
    replace (Z.to_nat (2 * D) + j)%nat with (2 * Z.to_nat D + j)%nat by lia.
    by rewrite Hu, Hv.
Qed.

Lemma sum_updater_adds_slices_witness :
  exists out : tensor Z,
    SumMemoryUpdater.call (H := KerasModel.keras)
      (SumMemoryUpdater.Make KerasModel.keras
         (KerasModel.MkLayer "sum_memory_updater" true) 2 "sum")
      (Tensor 6%nat [[1; 2; 3; 4; 5; 6]; [0; 0; 1; 1; 2; 2]]) = Ok out /\
    out = Tensor 2%nat [[8; 10]; [3; 3]].
Proof.
  pose proof (sum_updater_adds_slices (H := KerasModel.keras)
    (SumMemoryUpdater.Make KerasModel.keras
       (KerasModel.MkLayer "sum_memory_updater" true) 2 "sum")
    (Tensor 6%nat [[1; 2; 3; 4; 5; 6]; [0; 0; 1; 1; 2; 2]])) as Hthm.
  cbv zeta in Hthm.
  destruct Hthm as (out & Hcall & _).
  - simpl. lia.
  - repeat constructor.
  - reflexivity.
  - exists out. split; [exact Hcall|].
    vm_compute in Hcall. by inversion Hcall.
Defined.

Lemma tensor_ext {T} (a c : tensor T) :
  wf a -> wf c -> ncols a = ncols c -> nrows a = nrows c ->
  (forall i j : nat, (j < ncols a)%nat -> entry a i j = entry c i j) ->
  a = c.
Proof.
  destruct a as [m ra], c as [m' rc]. unfold wf, nrows, entry; simpl.
  intros Ha Hc <- Hn Hent. f_equal.
  apply list_eq. intros i.
  destruct (ra !! i) as [r|] eqn:Hr.
  - destruct (lookup_lt_is_Some_2 rc i) as [r' Hr'].
    { rewrite <- Hn. by eapply lookup_lt_Some. }
    rewrite Hr'. f_equal.
    pose proof (proj1 (Forall_lookup _ _) Ha _ _ Hr) as Hlen.
    pose proof (proj1 (Forall_lookup _ _) Hc _ _ Hr') as Hlen'.
    simpl in *. apply list_eq. intros j.
    destruct (decide (j < m)%nat) as [Hj|Hj].
    + specialize (Hent i j Hj). by rewrite Hr, Hr' in Hent.
    + rewrite !lookup_ge_None_2; [done|lia|lia].
  - symmetry. apply lookup_ge_None_2. rewrite <- Hn.
    by apply lookup_ge_None_1.
Qed.

(** C8: with a commutative addition of elements, two well-formed inputs
    of width 3D, D > 0, of which one has the memory columns [D,2D) where
    the other has the knowledge columns [2D,3D) and conversely, get the
    same output from the sum updater. *)
Theorem sum_updater_swap_invariant `{Keras} `{Backend T}
    (self : SumMemoryUpdater.t) (x y : tensor T) :
  let D := SumMemoryUpdater.encoding_dim self in
  (forall u v : T, add u v = add v u) ->
  0 < D -> wf x -> wf y ->
  Z.of_nat (ncols x) = 3 * D -> Z.of_nat (ncols y) = 3 * D ->
  nrows x = nrows y ->
  (forall i j : nat, (j < Z.to_nat D)%nat ->
     entry y i (Z.to_nat D + j) = entry x i (2 * Z.to_nat D + j) /\
     entry y i (2 * Z.to_nat D + j) = entry x i (Z.to_nat D + j)) ->
  SumMemoryUpdater.call self x = SumMemoryUpdater.call self y /\
  is_ok (SumMemoryUpdater.call self x) = true.
Proof.
  intros D Hcomm HD Hx Hy Hwx Hwy Hn Hswap.
  rewrite !sum_call_exact by done. fold D. split; [|done]. f_equal.
  assert (Hc : forall z : tensor T, Z.of_nat (ncols z) = 3 * D ->
            ncols (slice_cols z (Some D) (Some (2 * D))) = Z.to_nat D /\
            ncols (slice_cols z (Some (2 * D)) (Some (3 * D))) = Z.to_nat D).
  { intros z Hz. rewrite !ncols_slice_between by lia. lia. }
  destruct (Hc x Hwx) as [Hxm Hxk]. destruct (Hc y Hwy) as [Hym Hyk].
  apply tensor_ext.
  - apply add_rows_wf; [congruence|by apply slice_cols_wf..].
  - apply add_rows_wf; [congruence|by apply slice_cols_wf..].
  - simpl. congruence.
  - rewrite !add_rows_nrows by (by rewrite !slice_cols_nrows).
    by rewrite !slice_cols_nrows.
  - intros i j Hj. cbn [ncols add_rows] in Hj. rewrite Hxm in Hj.
    rewrite !entry_add_rows, !entry_slice_between by lia.
    replace (Z.to_nat (2 * D) + j)%nat with (2 * Z.to_nat D + j)%nat by lia.
    destruct (Hswap i j Hj) as [-> ->].
    destruct (entry x i (Z.to_nat D + j)) as [u|],
             (entry x i (2 * Z.to_nat D + j)) as [v|]; simpl; try done.
    by rewrite Hcomm.
Qed.

Lemma SFadd_comm (prec emax : Z) (u v : spec_float) :
  SFadd prec emax u v = SFadd prec emax v u.
Proof.
  destruct u as [[]|[]| |su mu eu], v as [[]|[]| |sv mv ev]; simpl;
    try reflexivity.
  by rewrite (Z.min_comm ev eu), Z.add_comm.
Qed.

Lemma sum_updater_swap_invariant_witness :
  let self := SumMemoryUpdater.Make KerasModel.keras
                (KerasModel.MkLayer "sum_memory_updater" true) 2 "sum" in
  let one := S754_finite false 8388608 (-23) in
  let two := S754_finite false 8388608 (-22) in
  SumMemoryUpdater.call (H0 := Z_backend) self
    (Tensor 6%nat [[1; 2; 3; 4; 5; 6]]) =
  SumMemoryUpdater.call (H0 := Z_backend) self
    (Tensor 6%nat [[1; 2; 5; 6; 3; 4]]) /\
  SumMemoryUpdater.call (H0 := binary32_backend) self
    (Tensor 6%nat [[one; one; one; S754_infinity true; two; S754_zero true]]) =
  SumMemoryUpdater.call (H0 := binary32_backend) self
    (Tensor 6%nat [[one; one; two; S754_zero true; one; S754_infinity true]]).
Proof.
  intros self one two. split.
  - refine (proj1 (sum_updater_swap_invariant (H := KerasModel.keras)
      (H0 := Z_backend) self _ _ _ _ _ _ _ _ _ _)); simpl.
    + intros u v. apply Z.add_comm.
    + lia.
    + repeat constructor.
    + repeat constructor.
    + reflexivity.
    + reflexivity.
    + reflexivity.
    + intros [|i] [|[|j]] Hj; try lia; by vm_compute.
  - refine (proj1 (sum_updater_swap_invariant (H := KerasModel.keras)
      (H0 := binary32_backend) self _ _ _ _ _ _ _ _ _ _)); simpl.
    + intros u v. apply SFadd_comm.
    + lia.
    + repeat constructor.
    + repeat constructor.
    + reflexivity.
    + reflexivity.
    + reflexivity.
    + intros [|i] [|[|j]] Hj; try lia; by vm_compute.
Defined.

(** ** The dense updaters *)


Lemma length_row_dot `{Backend T} (w : tensor T) (r : list T) :
  wf w -> length (row_dot w r) = ncols w.
Proof.
  unfold wf, row_dot. generalize (ncols w) as m. intros m Hw. revert r.
  induction Hw as [|wr ws Hwr Hws IH]; intros [|a r]; simpl;
    rewrite ?length_replicate; try done.
  rewrite length_zip_with, length_map, IH, Hwr. lia.
Qed.

Lemma dot_shape `{Backend T} (x w : tensor T) :
  wf w -> ncols x = nrows w ->
  exists out, dot x w = Ok out /\ wf out /\ nrows out = nrows x /\
              ncols out = ncols w.
Proof.
  intros Hw Hx. unfold dot. rewrite decide_True by done.
  eexists. split; [reflexivity|]. unfold wf, nrows; simpl. repeat split.
  - apply Forall_map, Forall_true. intros r. by apply length_row_dot.
  - apply length_map.
Qed.

Lemma add_bias_shape `{Backend T} (out : tensor T) (bias : list T) :
  wf out -> length bias = ncols out ->
  exists r, add_bias out bias = Ok r /\
            wf r /\ nrows r = nrows out /\ ncols r = ncols out.
Proof.
  intros Hout Hb. unfold add_bias. rewrite decide_True by done.
  eexists. split; [reflexivity|].
  unfold wf, nrows; cbn [ncols rows]. repeat split.
  - apply Forall_map. eapply Forall_impl; [exact Hout|].
    intros r Hr; simpl in *. rewrite length_zip_with. lia.
  - apply length_map.
Qed.

Lemma Dense_call_shape `{Backend T} (p : dense_params T) (x : tensor T)
    (n d : nat) :
  dense_params_ok p n d -> ncols x = n ->
  exists out, Dense_call p x = Ok out /\ wf out /\ nrows out = nrows x /\
              ncols out = d.
Proof.
  intros (Hw & Hwn & Hwd & Hb & Hact) Hx. unfold Dense_call.
  destruct (dot_shape x (W p)) as (o1 & -> & Ho1 & Hn1 & Hc1);
    [done|congruence|]. simpl.
  destruct (add_bias_shape o1 (b p)) as (o2 & -> & Ho2 & Hn2 & Hc2);
    [done|congruence|]. simpl.
  destruct (Hact o2 Ho2) as (Ho3 & Hn3 & Hc3).
  eexists. split; [reflexivity|]. repeat split; [done|congruence..].
Qed.


(** ** Shape inference: the float quotient

    Below 2^53 the float nearest to [w / 3] has the integer part of the
    exact quotient, so [int(w / 3)] is the floor of [w / 3]. *)

Lemma digits2_pos_bounds (p : positive) :
  2 ^ (Zpos (digits2_pos p) - 1) <= Zpos p < 2 ^ Zpos (digits2_pos p).
Proof.
  induction p as [p IH|p IH|]; simpl digits2_pos.
  - rewrite Pos2Z.inj_succ. replace (Z.succ (Z.pos (digits2_pos p)) - 1) with (Z.succ (Z.pos (digits2_pos p) - 1)) by lia.
    rewrite !Z.pow_succ_r by lia. lia.
  - rewrite Pos2Z.inj_succ. replace (Z.succ (Z.pos (digits2_pos p)) - 1) with (Z.succ (Z.pos (digits2_pos p) - 1)) by lia.
    rewrite !Z.pow_succ_r by lia. lia.
  - simpl. lia.
Qed.

Lemma Zdigits2_eq (q n : Z) :
  0 < n -> 2 ^ (n - 1) <= q < 2 ^ n -> Zdigits2 q = n.
Proof.
  intros Hn [Hlo Hhi].
  assert (Hq : 0 < q) by (pose proof (Z.pow_pos_nonneg 2 (n - 1)); lia).
  destruct q as [|p|p]; try lia. simpl.
  pose proof (digits2_pos_bounds p) as [Hl Hh].
  set (d := Zpos (digits2_pos p)) in *.
  assert (Hd : 0 < d) by (unfold d; lia).
  destruct (Z.lt_trichotomy d n) as [Hlt|[Heq|Hgt]]; [|done|].
  - assert (2 ^ d <= 2 ^ (n - 1)) by (apply Z.pow_le_mono_r; lia). lia.
  - assert (2 ^ n <= 2 ^ (d - 1)) by (apply Z.pow_le_mono_r; lia). lia.
Qed.

Lemma shr_fexp_exact (m e : Z) :
  2 ^ 52 <= m <= 2 ^ 53 -> -1074 <= e ->
  exists m' sh, shr_fexp 53 1024 m e loc_Exact =
                  (Build_shr_record m' false false, e + sh) /\
                0 <= sh <= 1 /\ m' * 2 ^ sh = m /\ 0 < m'.
Proof.
  intros Hm He. unfold shr_fexp.
  destruct (decide (m = 2 ^ 53)) as [->|Hne].
  - exists (2 ^ 52), 1.
    rewrite (Zdigits2_eq (2 ^ 53) 54) by lia.
    replace (fexp 53 1024 (54 + e) - e) with 1 by (unfold fexp, emin; lia).
    split; [|lia]. reflexivity.
  - exists m, 0.
    rewrite (Zdigits2_eq m 53) by lia.
    replace (fexp 53 1024 (53 + e) - e) with 0 by (unfold fexp, emin; lia).
    split; [|lia]. simpl. by rewrite Z.add_0_r.
Qed.

Lemma loc_of_shr_record_of_loc (m : Z) (l : location) :
  (exists c, l = loc_Inexact c) \/ l = loc_Exact ->
  shr_m (shr_record_of_loc m l) = m /\
  loc_of_shr_record (shr_record_of_loc m l) = l.
Proof. destruct l as [|[]]; by intros _. Qed.

Lemma round_first (q e : Z) (l : location) :
  2 ^ 52 <= q < 2 ^ 54 -> -1074 <= e ->
  exists m0 sh,
    (let '(mrs, e') := shr_fexp 53 1024 q e l in
     (round_nearest_even (shr_m mrs) (loc_of_shr_record mrs), e')) = (m0, e + sh) /\
    0 <= sh <= 1 /\ 2 ^ 52 <= m0 <= 2 ^ 53 /\
    q - 1 <= m0 * 2 ^ sh <= q + 1 /\
    (m0 * 2 ^ sh = q - 1 -> Z.odd q = true).
Proof.
  intros Hq He. unfold shr_fexp.
  destruct (decide (q < 2 ^ 53)) as [Hlt|Hge].
  - rewrite (Zdigits2_eq q 53) by lia.
    replace (fexp 53 1024 (53 + e) - e) with 0 by (unfold fexp, emin; lia).
    simpl shr.
    destruct (loc_of_shr_record_of_loc q l) as [-> ->].
    { destruct l; eauto. }
    exists (round_nearest_even q l), 0. rewrite Z.add_0_r.
    split; [done|]. unfold round_nearest_even.
    destruct l as [|[]]; try destruct (Z.even q); lia.
  - rewrite (Zdigits2_eq q 54) by lia.
    replace (fexp 53 1024 (54 + e) - e) with 1 by (unfold fexp, emin; lia).
    simpl shr.
    destruct q as [|[p|p|]|]; try lia.
    + (* q = 2p + 1 *)
      destruct l as [|[]];
        cbv [shr iter_pos shr_1 shr_record_of_loc shr_m loc_of_shr_record
             round_nearest_even orb];
        (destruct (Z.even (Zpos p)) eqn:Hev; eexists _, 1; (split; [reflexivity|]);
         repeat split; try lia; try (intros; reflexivity)).
    + destruct l as [|[]];
        cbv [shr iter_pos shr_1 shr_record_of_loc shr_m loc_of_shr_record
             round_nearest_even orb];
        eexists _, 1; (split; [reflexivity|]);
        (repeat split; try lia; intros; lia).
Qed.

Lemma binary_round_aux_bounds (q e : Z) (l : location) :
  2 ^ 52 <= q < 2 ^ 54 -> -1074 <= e <= 0 ->
  exists m sh,
    binary_round_aux 53 1024 false q e l = S754_finite false m (e + sh) /\
    0 <= sh <= 2 /\
    q - 1 <= Zpos m * 2 ^ sh <= q + 1 /\
    (Zpos m * 2 ^ sh = q - 1 -> Z.odd q = true).
Proof.
  intros Hq He. unfold binary_round_aux.
  destruct (round_first q e l Hq) as (m0 & sh1 & Heq & Hsh1 & Hm0 & Hb & Hodd);
    [lia|].
  destruct (shr_fexp 53 1024 q e l) as [mrs e'].
  injection Heq as -> ->.
  destruct (shr_fexp_exact m0 (e + sh1) Hm0) as (m1 & sh2 & -> & Hsh2 & Hm1 & Hpos);
    [lia|].
  cbn [shr_m]. destruct m1 as [|m|m]; try lia.
  replace (e + sh1 + sh2 <=? 1024 - 53) with true by (symmetry; apply Z.leb_le; lia).
  exists m, (sh1 + sh2).
  assert (Hpow : Zpos m * 2 ^ (sh1 + sh2) = m0 * 2 ^ sh1).
  { rewrite Z.pow_add_r by lia. rewrite <- Hm1. ring. }
  rewrite Hpow. repeat split; try lia; [by rewrite Z.add_assoc|exact Hodd].
Qed.

Lemma div_eucl_div_mod (a c : Z) : Z.div_eucl a c = (a / c, a mod c).
Proof. unfold Z.div, Z.modulo. by destruct (Z.div_eucl a c). Qed.

Lemma SFdiv_by_3 (w : Z) :
  0 < w < 2 ^ 53 ->
  exists m sh k,
    SFdiv 53 1024 (Z2SF w) (Z2SF 3) = S754_finite false m (sh - k) /\
    2 <= k <= 54 /\ 0 <= sh <= 2 /\
    let q := (w * 2 ^ k) / 3 in
    q - 1 <= Zpos m * 2 ^ sh <= q + 1 /\
    (Zpos m * 2 ^ sh = q - 1 -> Z.odd q = true).
Proof.
  intros Hw. destruct w as [|p|p]; try lia. cbn [Z2SF SFdiv xorb].
  unfold SFdiv_core_binary.
  pose proof (digits2_pos_bounds p) as Hd.
  change (Zdigits2 (Zpos p)) with (Zpos (digits2_pos p)).
  change (Zdigits2 3) with 2.
  set (d := Zpos (digits2_pos p)) in *.
  assert (Hd53 : 1 <= d <= 53).
  { split; [unfold d; lia|].
    destruct (Z_le_gt_dec d 53) as [|Hgt]; [done|].
    assert (2 ^ 53 <= 2 ^ (d - 1)) by (apply Z.pow_le_mono_r; lia). lia. }
  replace (Z.min (fexp 53 1024 (d + 0 - (2 + 0))) (0 - 0)) with (d - 55)
    by (unfold fexp, emin; lia).
  replace (0 - 0 - (d - 55)) with (55 - d) by lia.
  destruct (55 - d) as [|k|k] eqn:Hk; try lia.
  rewrite Z.shiftl_mul_pow2 by lia. rewrite div_eucl_div_mod.
  assert (Hq : 2 ^ 52 <= Zpos p * 2 ^ Zpos k / 3 < 2 ^ 54).
  { assert (Hpk : 2 ^ 54 <= Zpos p * 2 ^ Zpos k < 2 ^ 55).
    { replace 54 with ((d - 1) + Zpos k) by lia.
      replace 55 with (d + Zpos k) by lia.
      rewrite !Z.pow_add_r by lia.
      assert (0 < 2 ^ Zpos k) by (apply Z.pow_pos_nonneg; lia). nia. }
    split.
    - apply Z.div_le_lower_bound; lia.
    - apply Z.div_lt_upper_bound; lia. }
  destruct (binary_round_aux_bounds (Zpos p * 2 ^ Zpos k / 3) (d - 55)
              (new_location 3 (Zpos p * 2 ^ Zpos k mod 3)) Hq)
    as (m & sh & -> & Hsh & Hb & Hodd); [lia|].
  exists m, sh, (Zpos k). split; [f_equal; lia|].
  repeat split; try lia. exact Hodd.
Qed.

Lemma truncated_quotient (w k M : Z) :
  0 <= w -> 2 <= k ->
  let q := (w * 2 ^ k) / 3 in
  q - 1 <= M <= q + 1 -> (M = q - 1 -> Z.odd q = true) ->
  M / 2 ^ k = w / 3.
Proof.
  intros Hw Hk q HM Hodd.
  assert (HP : 2 ^ k = 2 * 2 ^ (k - 1)).
  { rewrite <- Z.pow_succ_r by lia. f_equal. lia. }
  assert (HP' : 2 <= 2 ^ (k - 1)).
  { change 2 with (2 ^ 1) at 1. apply Z.pow_le_mono_r; lia. }
  set (P' := 2 ^ (k - 1)) in *. 
  pose proof (Z.div_mod w 3 ltac:(lia)) as Hdiv.
  pose proof (Z.mod_pos_bound w 3 ltac:(lia)) as Hmod.
  set (n := w / 3) in *. set (f := w mod 3) in *.
  pose proof (Z.div_mod (w * 2 ^ k) 3 ltac:(lia)) as Hqd.
  pose proof (Z.mod_pos_bound (w * 2 ^ k) 3 ltac:(lia)) as Hqm.
  fold q in Hqd. rewrite HP in *.
  symmetry. apply Z.div_unique with (r := M - n * (2 * P')); [|lia].
  left. split.
  - destruct (decide (M = q - 1)) as [HMq|HMq].
    + specialize (Hodd HMq).
      assert (q <> n * (2 * P')).
      { intros Heq. rewrite Heq in Hodd.
        rewrite Z.mul_assoc, (Z.mul_comm _ P'), Z.mul_assoc in Hodd.
        rewrite Z.odd_mul in Hodd. simpl in Hodd.
        by rewrite andb_false_r in Hodd. }
      nia.
    + nia.
  - nia.
Qed.

Lemma py_int_truediv_3 (w : Z) :
  0 <= w < 2 ^ 53 -> rbind (py_truediv w 3) py_int = Ok (w / 3).
Proof.
  intros Hw. destruct (decide (w = 0)) as [->|Hne]; [reflexivity|].
  destruct (SFdiv_by_3 w ltac:(lia)) as (m & sh & k & Hdiv & Hk & Hsh & Hb & Hodd).
  unfold py_truediv. rewrite decide_False by done. rewrite Hdiv.
  cbn [rbind py_int cond_Zopp]. f_equal.
  rewrite Z.shiftl_div_pow2 by lia.
  replace (- (sh - k)) with (k - sh) by lia.
  rewrite <- (truncated_quotient w k (Zpos m * 2 ^ sh)) by (done || lia).
  replace (2 ^ k) with (2 ^ (k - sh) * 2 ^ sh)
    by (rewrite <- Z.pow_add_r by lia; f_equal; lia).
  rewrite Z.div_mul_cancel_r; [done| |];
    apply Z.pow_nonzero; lia.
Qed.

Lemma output_shape_third_floor {B} (batch : B) (w : Z) :
  0 <= w < 2 ^ 53 -> output_shape_third (batch, w) = Ok (batch, w / 3).
Proof.
  intros Hw. unfold output_shape_third. cbn [fst snd].
  pose proof (py_int_truediv_3 w Hw) as Hq.
  destruct (py_truediv w 3) as [f|e]; simpl in *; [|done].
  by destruct (py_int f) as [z|e]; simpl in *; simplify_eq.
Qed.

Lemma preserves_shape_id {T} : preserves_shape (@id (tensor T)).
Proof. by intros t Ht. Qed.

(** C4 fails for the dense-concat-no-question updater.  The weights of a
    dense layer are created for the width of the input of the layer; for
    an input of shape (B, 3D), D > 0, they have 3D rows.  With such
    weights the sum updater and the dense-concat updater return a tensor
    of width D, whose shape is the one their shape inference reports, but
    the dense-concat-no-question updater, which multiplies the 2D columns
    it keeps by the 3D rows of the weights, raises, while its shape
    inference reports the shape (B, D). *)
Theorem no_question_call_raises_on_built_weights `{Keras} `{Backend T}
    (D : Z) (x : tensor T)
    (us : SumMemoryUpdater.t) (un : DenseConcatNoQuestionMemoryUpdater.t)
    (ud : DenseConcatMemoryUpdater.t) (p : dense_params T) :
  0 < D -> 3 * D < 2 ^ 53 ->
  SumMemoryUpdater.encoding_dim us = D ->
  DenseConcatNoQuestionMemoryUpdater.encoding_dim un = D ->
  wf x -> Z.of_nat (ncols x) = 3 * D ->
  dense_params_ok p (Z.to_nat (3 * D)) (Z.to_nat D) ->
  (exists out, SumMemoryUpdater.call us x = Ok out /\ wf out /\
     Z.of_nat (ncols out) = D /\
     SumMemoryUpdater.get_output_shape_for us (shape x) = Ok (shape out)) /\
  (exists out, DenseConcatMemoryUpdater.call ud p x = Ok out /\ wf out /\
     Z.of_nat (ncols out) = D /\
     DenseConcatMemoryUpdater.get_output_shape_for ud (shape x) =
     Ok (shape out)) /\
  (DenseConcatNoQuestionMemoryUpdater.call un p x = Raise mismatch_error /\
   DenseConcatNoQuestionMemoryUpdater.get_output_shape_for un (shape x) =
   Ok (Z.of_nat (nrows x), D)).
Proof.
  intros HD Hbound Hus Hun Hx Hw Hp.
  assert (Hinfer : output_shape_third (shape x) = Ok (Z.of_nat (nrows x), D)).
  { unfold shape. rewrite Hw, output_shape_third_floor by lia.
    do 2 f_equal. rewrite Z.mul_comm. apply Z.div_mul. lia. }
  assert (Hshape : forall out : tensor T,
            nrows out = nrows x -> ncols out = Z.to_nat D ->
            output_shape_third (shape x) = Ok (shape out)).
  { intros out Hn Hc. rewrite Hinfer. unfold shape. rewrite Hn, Hc.
    do 2 f_equal. lia. }
  split; [|split].
  - destruct (sum_call_shape us x) as (out & Hc & Hwf & Hn & Hm);
      [lia|done|by rewrite Hus|].
    rewrite Hus in Hm. exists out. repeat split; [done|done|lia|].
    by apply Hshape.
  - unfold DenseConcatMemoryUpdater.call.
    destruct (Dense_call_shape p x _ _ Hp) as (out & Hc & Hwf & Hn & Hm);
      [lia|].
    exists out. repeat split; [done|done|lia|]. by apply Hshape.
  - split; [|exact Hinfer].
    unfold DenseConcatNoQuestionMemoryUpdater.call, Dense_call, dot.
    rewrite Hun. destruct Hp as (_ & Hrows & _).
    rewrite decide_False; [done|].
    rewrite ncols_slice_from by lia. lia.
Qed.

Lemma no_question_call_raises_on_built_weights_witness :
  DenseConcatNoQuestionMemoryUpdater.call (H := KerasModel.keras)
    (DenseConcatNoQuestionMemoryUpdater.Make KerasModel.keras 1
       (KerasModel.MkDense (KerasModel.MkLayer "u" true) 1 "glorot_uniform" "linear"))
    (DenseParams (Tensor 1%nat [[1]; [1]; [1]]) [0] id)
    (Tensor 3%nat [[1; 2; 3]; [4; 5; 6]]) = Raise ValueError /\
  DenseConcatNoQuestionMemoryUpdater.get_output_shape_for (H := KerasModel.keras)
    (DenseConcatNoQuestionMemoryUpdater.Make KerasModel.keras 1
       (KerasModel.MkDense (KerasModel.MkLayer "u" true) 1 "glorot_uniform" "linear"))
    (shape (Tensor 3%nat [[1; 2; 3]; [4; 5; 6]])) = Ok (2, 1).
Proof.
  destruct (no_question_call_raises_on_built_weights (H := KerasModel.keras) 1
    (Tensor 3%nat [[1; 2; 3]; [4; 5; 6]])
    (SumMemoryUpdater.Make KerasModel.keras
       (KerasModel.MkLayer "sum_memory_updater" true) 1 "sum")
    (DenseConcatNoQuestionMemoryUpdater.Make KerasModel.keras 1
       (KerasModel.MkDense (KerasModel.MkLayer "u" true) 1 "glorot_uniform" "linear"))
    (DenseConcatMemoryUpdater.Make KerasModel.keras 1
       (KerasModel.MkDense (KerasModel.MkLayer "u" true) 1 "glorot_uniform" "linear"))
    (DenseParams (Tensor 1%nat [[1]; [1]; [1]]) [0] id))
    as (_ & _ & Hraise & Hinfer).
  - lia.
  - lia.
  - reflexivity.
  - reflexivity.
  - repeat constructor.
  - reflexivity.
  - refine (conj _ (conj _ (conj _ (conj _ _))));
      [repeat constructor|reflexivity..|apply preserves_shape_id].
  - split; [exact Hraise|exact Hinfer].
Defined.

(** C9: with D = 2 and the input [1,2, 3,4, 5,6], the sum updater returns
    [8,10]; the dense-concat-no-question updater first reduces the input
    to [3,4,5,6] and, with the identity activation, the weights
    [[1,0],[0,1],[0,0],[0,0]] and the bias [0,0], returns [3,4]. *)
Theorem concrete_scenario `{Keras} (l : Layer) (d : Dense) :
  SumMemoryUpdater.call (SumMemoryUpdater.Make _ l 2 "sum")
    (Tensor 6%nat [[1; 2; 3; 4; 5; 6]]) = Ok (Tensor 2%nat [[8; 10]]) /\
  slice_cols (Tensor 6%nat [[1; 2; 3; 4; 5; 6]]) (Some 2) None =
    Tensor 4%nat [[3; 4; 5; 6]] /\
  DenseConcatNoQuestionMemoryUpdater.call
    (DenseConcatNoQuestionMemoryUpdater.Make _ 2 d)
    (DenseParams (Tensor 2%nat [[1; 0]; [0; 1]; [0; 0]; [0; 0]]) [0; 0] id)
    (Tensor 6%nat [[1; 2; 3; 4; 5; 6]]) = Ok (Tensor 2%nat [[3; 4]]).
Proof. repeat split; vm_compute; reflexivity. Qed.

(** ** Inputs wider than 3D *)

(** C10 as stated fails: at D = 2 and width 7 the sum updater has no output of width
    7 - 2*2 = 3: adding the slice of width 2 and the slice of width 3
    raises. *)
Lemma sum_updater_wide_input_raises :
  ~ exists out : tensor Z,
      SumMemoryUpdater.call (H := KerasModel.keras)
        (SumMemoryUpdater.Make KerasModel.keras
           (KerasModel.MkLayer "sum_memory_updater" true) 2 "sum")
        (Tensor 7%nat [[1; 2; 3; 4; 5; 6; 7]]) = Ok out /\
      Z.of_nat (ncols out) = 7 - 2 * 2.
Proof. intros (out & Hcall & _). vm_compute in Hcall. discriminate. Qed.

(** C10, amended: for D > 0 and a well-formed input of width W >= 2D, the
    third tensor returned by the splitter holds the columns [2D, W) of the
    input and has width W - 2D; for W > 3D it is wider than D, and wider
    than the width int(W / 3) that the shape inference reports (for
    W < 2^53, where that width is the floor of W / 3).  The sum updater
    then adds a tensor of width D and one of width W - 2D; for D >= 2
    this addition raises the shape error of the backend and there is no
    output. *)
Theorem third_slice_width `{Keras} `{Backend T} (self : SumMemoryUpdater.t)
    (x : tensor T) :
  let D := SumMemoryUpdater.encoding_dim self in
  let Wd := Z.of_nat (ncols x) in
  let k := snd (split_updater_inputs x D) in
  0 < D -> wf x -> 2 * D <= Wd ->
  (wf k /\ nrows k = nrows x /\ Z.of_nat (ncols k) = Wd - 2 * D /\
   forall i j : nat, entry k i j = entry x i (Z.to_nat (2 * D) + j)) /\
  (3 * D < Wd -> D < Z.of_nat (ncols k)) /\
  (3 * D < Wd -> Wd < 2 ^ 53 ->
   exists w : Z,
     SumMemoryUpdater.get_output_shape_for self (shape x) =
       Ok (Z.of_nat (nrows x), w) /\
     w = Wd / 3 /\ w < Z.of_nat (ncols k)) /\
  (3 * D < Wd -> 2 <= D ->
   SumMemoryUpdater.call self x = Raise mismatch_error).
Proof.
  intros D Wd k HD Hx HW.
  assert (Hk : Z.of_nat (ncols k) = Wd - 2 * D).
  { unfold k, split_updater_inputs; simpl snd.
    rewrite ncols_slice_from by lia. unfold Wd. lia. }
  assert (Hm : ncols (slice_cols x (Some D) (Some (2 * D))) = Z.to_nat D).
  { rewrite ncols_slice_between by lia. unfold Wd in HW. lia. }
  split; [|split; [|split]].
  - repeat split.
    + by apply slice_cols_wf.
    + apply slice_cols_nrows.
    + exact Hk.
    + intros i j. unfold k, split_updater_inputs; simpl snd.
      by apply entry_slice_from; lia.
  - lia.
  - intros Hwide Hbound. exists (Wd / 3).
    unfold SumMemoryUpdater.get_output_shape_for, shape. fold Wd.
    rewrite output_shape_third_floor by lia.
    split; [done|]. split; [done|].
    pose proof (Z.div_mod Wd 3) as Hdiv.
    pose proof (Z.mod_pos_bound Wd 3). lia.
  - intros Hwide HD2.
    unfold SumMemoryUpdater.call, split_updater_inputs. fold D.
    unfold k, split_updater_inputs in Hk; simpl snd in Hk.
    apply tensor_add_mismatch.
    + by rewrite !slice_cols_nrows.
    + rewrite Hm. lia.
    + rewrite Hm. lia.
    + lia.
Qed.

Lemma third_slice_width_witness :
  SumMemoryUpdater.call (H := KerasModel.keras)
    (SumMemoryUpdater.Make KerasModel.keras
       (KerasModel.MkLayer "sum_memory_updater" true) 2 "sum")
    (Tensor 7%nat [[1; 2; 3; 4; 5; 6; 7]]) = Raise ValueError /\
  snd (split_updater_inputs (Tensor 7%nat [[1; 2; 3; 4; 5; 6; 7]]) 2) =
    Tensor 3%nat [[5; 6; 7]].
Proof.
  pose proof (third_slice_width (H := KerasModel.keras)
    (SumMemoryUpdater.Make KerasModel.keras
       (KerasModel.MkLayer "sum_memory_updater" true) 2 "sum")
    (Tensor 7%nat [[1; 2; 3; 4; 5; 6; 7]])) as Hthm.
  cbv zeta in Hthm.
  destruct Hthm as (_ & _ & _ & Hraise).
  - simpl. lia.
  - repeat constructor.
  - simpl. lia.
  - split; [apply Hraise; simpl; lia|reflexivity].
Defined.

(** ** The registry *)

(** C6: the registry holds exactly the keys dense_concat, sum and
    dense_concat_no_question, in this order, each mapped to the class of
    that name, whose call is that class's constructor; the lookup of any
    other key raises a KeyError for that key. *)
Theorem updaters_registry :
  od_keys updaters = ["dense_concat"; "sum"; "dense_concat_no_question"] /\
  od_getitem updaters "dense_concat" = Ok DenseConcatMemoryUpdater /\
  od_getitem updaters "sum" = Ok SumMemoryUpdater /\
  od_getitem updaters "dense_concat_no_question" =
    Ok DenseConcatNoQuestionMemoryUpdater /\
  (forall k : string,
     k ∉ ["dense_concat"; "sum"; "dense_concat_no_question"] ->
     od_getitem updaters k = Raise (KeyError k)) /\
  (forall (K : Keras) (D : Z) (name : string) (kwargs : gmap string pyval),
     is_ok (construct SumMemoryUpdater D name kwargs) =
       is_ok (SumMemoryUpdater.init D name kwargs) /\
     is_ok (construct DenseConcatMemoryUpdater D name kwargs) =
       is_ok (DenseConcatMemoryUpdater.init D name kwargs) /\
     is_ok (construct DenseConcatNoQuestionMemoryUpdater D name kwargs) =
       is_ok (DenseConcatNoQuestionMemoryUpdater.init D name kwargs)).
Proof.
  repeat split; try reflexivity.
  - intros k Hk. unfold updaters; simpl.
    rewrite !not_elem_of_cons in Hk. destruct Hk as (H1 & H2 & H3 & _).
    by rewrite !decide_False.
  - unfold construct. by destruct SumMemoryUpdater.init.
  - unfold construct. by destruct DenseConcatMemoryUpdater.init.
  - unfold construct. by destruct DenseConcatNoQuestionMemoryUpdater.init.
Qed.

Lemma updaters_registry_witness :
  od_getitem updaters "dense" = Raise (KeyError "dense").
Proof.
  apply (proj1 (proj2 (proj2 (proj2 (proj2 updaters_registry))))).
  rewrite !not_elem_of_cons. repeat split; try discriminate.
  apply not_elem_of_nil.
Defined.

(** ** Construction *)

(** C3 as stated fails: the sum updater is constructed with encoding
    dimension 0, and with a negative one; no ConfigurationError is raised. *)
Lemma sum_updater_accepts_nonpositive_dim :
  SumMemoryUpdater.init (H := KerasModel.keras) 0 SumMemoryUpdater.default_name ∅ =
    Ok (SumMemoryUpdater.Make KerasModel.keras
          (KerasModel.MkLayer "sum_memory_updater" true) 0 "sum") /\
  SumMemoryUpdater.init (H := KerasModel.keras) (-3) SumMemoryUpdater.default_name ∅ <>
    Raise ConfigurationError.
Proof. split; [reflexivity|discriminate]. Qed.

(** C3, amended: the constructors do not check the encoding dimension.
    For every integer encoding dimension, also a non-positive one, the
    sum updater is constructed whenever the base layer accepts the name
    and the keyword arguments, and it stores the dimension unchanged; the
    two dense updaters hand the dimension to the constructor of [Dense]
    as its output width and raise exactly what that constructor raises. *)
Theorem construction_unchecked `{Keras} (D : Z) (name : string)
    (kwargs : gmap string pyval) :
  (forall e, SumMemoryUpdater.init D name kwargs = Raise e <->
             Layer_init name kwargs = Raise e) /\
  (forall l, Layer_init name kwargs = Ok l ->
             SumMemoryUpdater.init D name kwargs =
             Ok (SumMemoryUpdater.Make _ l D "sum")) /\
  (forall e, DenseConcatNoQuestionMemoryUpdater.init D name kwargs = Raise e <->
             Dense_init D name kwargs = Raise e) /\
  (forall d, Dense_init D name kwargs = Ok d ->
             DenseConcatNoQuestionMemoryUpdater.init D name kwargs =
             Ok (DenseConcatNoQuestionMemoryUpdater.Make _ D d)) /\
  (forall e, DenseConcatMemoryUpdater.init D name kwargs = Raise e <->
             Dense_init D name kwargs = Raise e) /\
  (forall d, Dense_init D name kwargs = Ok d ->
             DenseConcatMemoryUpdater.init D name kwargs =
             Ok (DenseConcatMemoryUpdater.Make _ D d)).
Proof.
  unfold SumMemoryUpdater.init, DenseConcatNoQuestionMemoryUpdater.init,
    DenseConcatMemoryUpdater.init.
  repeat split.
  all: try (destruct (Layer_init name kwargs); simpl; congruence).
  all: try (destruct (Dense_init D name kwargs); simpl; congruence).
  all: intros ? ->; reflexivity.
Qed.

Lemma construction_unchecked_witness :
  DenseConcatMemoryUpdater.init (H := KerasModel.keras) (-1)
    DenseConcatMemoryUpdater.default_name ∅ =
  Ok (DenseConcatMemoryUpdater.Make KerasModel.keras (-1)
        (KerasModel.MkDense (KerasModel.MkLayer "dense_concat_memory_updater" true)
           (-1) "glorot_uniform" "linear")).
Proof.
  apply (proj2 (proj2 (proj2 (proj2 (proj2
    (construction_unchecked (H := KerasModel.keras) (-1)
       DenseConcatMemoryUpdater.default_name ∅)))))).
  reflexivity.
Defined.

(** ** Configurations *)

Lemma sum_config_has_encoding_dim `{Keras} (u : SumMemoryUpdater.t) :
  Layer_get_config (SumMemoryUpdater.base u) !! "encoding_dim" = None ->
  SumMemoryUpdater.get_config u !! "encoding_dim" =
  Some (PInt (SumMemoryUpdater.encoding_dim u)).
Proof.
  intros Hbase. unfold SumMemoryUpdater.get_config, dict_update.
  rewrite lookup_union_r by done. apply lookup_singleton_eq.
Qed.

Lemma no_question_config_has_encoding_dim `{Keras}
    (u : DenseConcatNoQuestionMemoryUpdater.t) :
  Dense_get_config (DenseConcatNoQuestionMemoryUpdater.dense u) !! "encoding_dim"
    = None ->
  DenseConcatNoQuestionMemoryUpdater.get_config u !! "encoding_dim" =
  Some (PInt (Dense_output_dim (DenseConcatNoQuestionMemoryUpdater.dense u))).
Proof.
  intros Hbase. unfold DenseConcatNoQuestionMemoryUpdater.get_config, dict_update.
  rewrite lookup_union_r by done. apply lookup_singleton_eq.
Qed.

(** In the model of the framework the configuration of a sum updater is
    read back to the same updater. *)
Lemma sum_config_round_trip (D : Z) (name : string) (trainable : bool) :
  let u := SumMemoryUpdater.Make KerasModel.keras
             (KerasModel.MkLayer name trainable) D "sum" in
  from_config (H := KerasModel.keras) SumMemoryUpdater (get_config (USum u)) =
  Ok (USum u).
Proof. reflexivity. Qed.

(** In the model of the framework the configuration of a
    dense-concat-no-question updater holds the width twice, as
    [encoding_dim] and as [output_dim], and is refused by the
    constructor. *)
Lemma no_question_config_round_trip_raises (D : Z) (d : KerasModel.dense) :
  let u := DenseConcatNoQuestionMemoryUpdater.Make KerasModel.keras D d in
  from_config (H := KerasModel.keras) DenseConcatNoQuestionMemoryUpdater
    (get_config (UDenseConcatNoQuestion u)) = Raise TypeError.
Proof. reflexivity. Qed.

(** Reading a configuration without the entry [encoding_dim] back raises
    a TypeError for the missing argument of the constructor. *)
Lemma from_config_needs_encoding_dim `{Keras} (cls : updater_class)
    (config : gmap string pyval) :
  config !! "encoding_dim" = None -> from_config cls config = Raise TypeError.
Proof. intros Hnone. unfold from_config. by rewrite Hnone. Qed.

(** C2 fails for the dense-concat updater: the class defines no
    [get_config], so its configuration is the one of [Dense], which has no
    entry [encoding_dim]; the serialised configuration does not contain the
    encoding dimension, whereas those of the sum updater and of the
    dense-concat-no-question updater do. *)
Theorem dense_concat_config_lacks_encoding_dim `{Keras}
    (u : DenseConcatMemoryUpdater.t) :
  Dense_get_config (DenseConcatMemoryUpdater.dense u) !! "encoding_dim" = None ->
  DenseConcatMemoryUpdater.get_config u !! "encoding_dim" = None /\
  get_config (UDenseConcat u) !! "encoding_dim" = None.
Proof.
  intros Hbase. unfold get_config, DenseConcatMemoryUpdater.get_config.
  by rewrite Hbase.
Qed.

Lemma dense_concat_config_lacks_encoding_dim_witness :
  exists u : DenseConcatMemoryUpdater.t (H := KerasModel.keras),
    construct (H := KerasModel.keras) DenseConcatMemoryUpdater 2
      DenseConcatMemoryUpdater.default_name ∅ = Ok (UDenseConcat u) /\
    get_config (H := KerasModel.keras) (UDenseConcat u) !! "encoding_dim" = None /\
    get_config (H := KerasModel.keras) (UDenseConcat u) !! "output_dim" =
      Some (PInt 2).
Proof.
  eexists. split; [reflexivity|]. split; [|reflexivity].
  apply (proj2 (dense_concat_config_lacks_encoding_dim (H := KerasModel.keras) _
                  eq_refl)).
Defined.

(** In the model of the framework, reading the configuration of a
    dense-concat updater back raises. *)
Lemma dense_concat_config_round_trip_raises (D : Z) (d : KerasModel.dense) :
  from_config (H := KerasModel.keras) DenseConcatMemoryUpdater
    (get_config (UDenseConcat (DenseConcatMemoryUpdater.Make KerasModel.keras D d)))
  = Raise TypeError.
Proof. reflexivity. Qed.

(** * Further properties *)

(** ** The splitter on any width *)

Lemma py_slice_nil_of_bounds {A} (l : list A) (start stop : option Z) :
  (snd (slice_bounds (length l) start stop) <=
   fst (slice_bounds (length l) start stop))%nat ->
  py_slice l start stop = [].
Proof.
  intros Hle. apply length_zero_iff_nil. rewrite length_py_slice. lia.
Qed.

Lemma slice_bounds_nonpositive (len : nat) (a : Z) :
  a <= 0 ->
  let bounds := slice_bounds len (Some a) (Some (2 * a)) in
  (snd bounds <= fst bounds)%nat.
Proof.
  intros Ha. unfold slice_bounds, slice_index; simpl.
  destruct (Z.ltb_spec a 0), (Z.ltb_spec (2 * a) 0); lia.
Qed.

(** X1: for an encoding dimension D >= 0 and a well-formed input of any
    width, the three tensors returned by [split_updater_inputs] are
    well-formed, keep the number of rows, and cut every row of the input
    into three consecutive pieces: the pieces of a row, put one after the
    other, are the row, and the three widths add up to the width of the
    input. *)
Theorem split_updater_inputs_partition {T} (x : tensor T) (D : Z) :
  0 <= D -> wf x ->
  exists q m k : tensor T,
    split_updater_inputs x D = (q, m, k) /\
    (wf q /\ wf m /\ wf k) /\
    (nrows q = nrows x /\ nrows m = nrows x /\ nrows k = nrows x) /\
    (ncols q + ncols m + ncols k = ncols x)%nat /\
    forall (i : nat) (r : list T), rows x !! i = Some r ->
      exists rq rm rk : list T,
        rows q !! i = Some rq /\ rows m !! i = Some rm /\
        rows k !! i = Some rk /\ (rq ++ rm ++ rk)%list = r.
Proof.
  intros HD Hwf. unfold split_updater_inputs.
  do 3 eexists. split; [reflexivity|].
  split; [auto using slice_cols_wf|].
  split; [by rewrite !slice_cols_nrows|].
  split.
  - rewrite ncols_slice_to, ncols_slice_between, ncols_slice_from by lia. lia.
  - intros i r Hr. rewrite !entry_slice_cols, Hr. simpl.
    do 3 eexists. repeat split.
    rewrite py_slice_to, py_slice_between, py_slice_from by lia.
    replace (Z.to_nat (2 * D) - Z.to_nat D)%nat with (Z.to_nat D) by lia.
    replace (Z.to_nat (2 * D)) with (Z.to_nat D + Z.to_nat D)%nat by lia.
    rewrite <- drop_drop. by rewrite !take_drop.
Qed.

Lemma split_updater_inputs_partition_witness :
  exists q m k : tensor Z,
    split_updater_inputs (Tensor 5%nat [[1; 2; 3; 4; 5]; [6; 7; 8; 9; 10]]) 2 =
      (q, m, k) /\
    (ncols q + ncols m + ncols k = 5)%nat /\
    k = Tensor 1%nat [[5]; [10]].
Proof.
  destruct (split_updater_inputs_partition
              (Tensor 5%nat [[1; 2; 3; 4; 5]; [6; 7; 8; 9; 10]]) 2)
    as (q & m & k & Heq & _ & _ & Hw & _).
  - lia.
  - repeat constructor.
  - exists q, m, k. split; [exact Heq|]. split; [exact Hw|].
    vm_compute in Heq. by inversion Heq.
Defined.

(** X2: for a non-positive encoding dimension the memory slice is empty:
    it has width 0 and every row of it is empty.  For the dimension 0 the
    question slice is empty as well and the knowledge slice is the whole
    input; for a negative dimension D and an input of width W the question
    slice is the input without its last -D columns and the knowledge slice
    holds its last min(-2D, W) columns. *)
Theorem split_updater_inputs_nonpositive {T} (x : tensor T) (D : Z) :
  D <= 0 -> wf x ->
  exists q m k : tensor T,
    split_updater_inputs x D = (q, m, k) /\
    (ncols m = 0%nat /\ Forall (fun r => r = []) (rows m)) /\
    (D = 0 -> ncols q = 0%nat /\ k = x) /\
    (D < 0 ->
       Z.of_nat (ncols q) = Z.max (Z.of_nat (ncols x) + D) 0 /\
       Z.of_nat (ncols k) = Z.min (- (2 * D)) (Z.of_nat (ncols x))).
Proof.
  intros HD Hwf. unfold split_updater_inputs.
  do 3 eexists. split; [reflexivity|]. split; [|split].
  - split.
    + unfold slice_cols; cbn [ncols].
      pose proof (slice_bounds_nonpositive (ncols x) D HD) as Hb.
      destruct (slice_bounds (ncols x) (Some D) (Some (2 * D))); simpl in *. lia.
    + unfold slice_cols; cbn [rows]. apply Forall_map, Forall_true. intros r.
      by apply py_slice_nil_of_bounds, slice_bounds_nonpositive.
  - intros ->. split.
    + by rewrite ncols_slice_to.
    + change (2 * 0) with 0. destruct x as [w rs]. unfold slice_cols.
      cbn [ncols rows]. rewrite slice_bounds_from by done. f_equal.
      * simpl. lia.
      * unfold wf in Hwf; simpl in Hwf.
        rewrite <- (list_fmap_id rs) at 2. apply Forall_fmap_ext.
        apply Forall_true. intros r. by rewrite py_slice_from.
  - intros Hneg. unfold slice_cols; cbn [ncols].
    unfold slice_bounds, slice_index; simpl.
    destruct (Z.ltb_spec D 0); [|lia]. destruct (Z.ltb_spec (2 * D) 0); lia.
Qed.

Lemma split_updater_inputs_nonpositive_witness :
  exists q m k : tensor Z,
    split_updater_inputs (Tensor 3%nat [[1; 2; 3]]) (-1) = (q, m, k) /\
    ncols m = 0%nat /\ q = Tensor 2%nat [[1; 2]] /\ k = Tensor 2%nat [[2; 3]].
Proof.
  destruct (split_updater_inputs_nonpositive (Tensor 3%nat [[1; 2; 3]]) (-1))
    as (q & m & k & Heq & [Hm _] & _).
  - lia.
  - repeat constructor.
  - exists q, m, k. split; [exact Heq|]. split; [exact Hm|].
    vm_compute in Heq. by inversion Heq.
Defined.

(** ** The sum updater on other widths *)

(** X3: the sum updater checks no width itself; what happens on a width
    other than 3D is decided by the addition of the two slices.  For
    D >= 2 and an input of width W >= 2D + 2, on which both slices are at
    least 2 wide, its call returns a tensor exactly when W = 3D, and on
    every other such width, narrower or wider than 3D, it raises the
    shape error of the backend. *)
Theorem sum_call_accepted_widths `{Keras} `{Backend T}
    (self : SumMemoryUpdater.t) (x : tensor T) :
  let D := SumMemoryUpdater.encoding_dim self in
  let Wd := Z.of_nat (ncols x) in
  2 <= D -> 2 * D + 2 <= Wd ->
  (is_ok (SumMemoryUpdater.call self x) = true <-> Wd = 3 * D) /\
  (Wd <> 3 * D -> SumMemoryUpdater.call self x = Raise mismatch_error).
Proof.
  intros D Wd HD HW.
  unfold SumMemoryUpdater.call, split_updater_inputs. fold D.
  set (m := slice_cols x (Some D) (Some (2 * D))).
  set (k := slice_cols x (Some (2 * D)) None).
  assert (Hm : ncols m = Z.to_nat D).
  { unfold m. rewrite ncols_slice_between by lia. unfold Wd in HW. lia. }
  assert (Hk : Z.of_nat (ncols k) = Wd - 2 * D).
  { unfold k. rewrite ncols_slice_from by lia. unfold Wd in *. lia. }
  assert (Hn : nrows m = nrows k) by (unfold m, k; by rewrite !slice_cols_nrows).
  assert (Hraise : Wd <> 3 * D -> tensor_add m k = Raise mismatch_error).
  { intros Hne. apply tensor_add_mismatch; [done|lia..]. }
  split; [|exact Hraise]. split.
  - intros Hok. destruct (decide (Wd = 3 * D)) as [|Hne]; [done|].
    by rewrite (Hraise Hne) in Hok.
  - intros Heq. rewrite tensor_add_same_shape; [done|done|lia..].
Qed.

Lemma sum_call_accepted_widths_witness :
  SumMemoryUpdater.call (H := KerasModel.keras)
    (SumMemoryUpdater.Make KerasModel.keras
       (KerasModel.MkLayer "sum_memory_updater" true) 3 "sum")
    (Tensor 8%nat [[1; 2; 3; 4; 5; 6; 7; 8]]) = Raise ValueError.
Proof.
  apply (proj2 (sum_call_accepted_widths (H := KerasModel.keras)
    (SumMemoryUpdater.Make KerasModel.keras
       (KerasModel.MkLayer "sum_memory_updater" true) 3 "sum")
    (Tensor 8%nat [[1; 2; 3; 4; 5; 6; 7; 8]])
    ltac:(simpl; lia) ltac:(simpl; lia))).
  simpl. lia.
Defined.

(** X5: the sum updater discards the question vector.  For an encoding
    dimension D >= 0, two well-formed inputs of one shape, of any width,
    that agree on every column from D on get the same result, be it a
    tensor or an error. *)
Theorem sum_call_ignores_question `{Keras} `{Backend T}
    (self : SumMemoryUpdater.t) (x y : tensor T) :
  let D := SumMemoryUpdater.encoding_dim self in
  0 <= D -> wf x -> wf y -> ncols x = ncols y -> nrows x = nrows y ->
  (forall i j : nat, (Z.to_nat D <= j)%nat -> entry x i j = entry y i j) ->
  SumMemoryUpdater.call self x = SumMemoryUpdater.call self y.
Proof.
  intros D HD Hx Hy Hc Hn Hagree.
  unfold SumMemoryUpdater.call, split_updater_inputs. fold D.
  f_equal.
  - apply tensor_ext.
    + by apply slice_cols_wf.
    + by apply slice_cols_wf.
    + rewrite !ncols_slice_between by lia. by rewrite Hc.
    + by rewrite !slice_cols_nrows.
    + intros i j Hj. rewrite ncols_slice_between in Hj by lia.
      rewrite !entry_slice_between by lia. apply Hagree. lia.
  - apply tensor_ext.
    + by apply slice_cols_wf.
    + by apply slice_cols_wf.
    + rewrite !ncols_slice_from by lia. by rewrite Hc.
    + by rewrite !slice_cols_nrows.
    + intros i j _. rewrite !entry_slice_from by lia. apply Hagree. lia.
Qed.

Lemma sum_call_ignores_question_witness :
  SumMemoryUpdater.call (H := KerasModel.keras)
    (SumMemoryUpdater.Make KerasModel.keras
       (KerasModel.MkLayer "sum_memory_updater" true) 1 "sum")
    (Tensor 4%nat [[1; 2; 3; 4]]) =
  SumMemoryUpdater.call (H := KerasModel.keras)
    (SumMemoryUpdater.Make KerasModel.keras
       (KerasModel.MkLayer "sum_memory_updater" true) 1 "sum")
    (Tensor 4%nat [[7; 2; 3; 4]]).
Proof.
  apply (sum_call_ignores_question (H := KerasModel.keras)); simpl.
  - lia.
  - repeat constructor.
  - repeat constructor.
  - reflexivity.
  - reflexivity.
  - intros [|i] [|j] Hj; try lia; reflexivity.
Defined.

Lemma slice_cols_vstack {T} (x y : tensor T) (start stop : option Z) :
  ncols x = ncols y ->
  slice_cols (vstack x y) start stop =
  vstack (slice_cols x start stop) (slice_cols y start stop).
Proof. intros Hc. unfold slice_cols, vstack; simpl. by rewrite map_app. Qed.

Lemma add_rows_vstack `{Backend T} (a a' c c' : tensor T) :
  nrows a = nrows c ->
  add_rows (vstack a a') (vstack c c') = vstack (add_rows a c) (add_rows a' c').
Proof.
  intros Hn. unfold add_rows, vstack; simpl. f_equal.
  by apply zip_with_app.
Qed.

Lemma vstack_wf {T} (x y : tensor T) :
  ncols x = ncols y -> wf x -> wf y -> wf (vstack x y).
Proof.
  intros Hc Hx Hy. unfold wf, vstack in *; simpl.
  apply Forall_app. split; [done|]. by rewrite Hc.
Qed.

(** X6: the sum updater treats the rows of a batch independently, which
    is what applying it at every step of a sequence relies on.  For D > 0
    and two well-formed batches of width 3D, its result on the two batches
    put one after the other is its result on the first followed by its
    result on the second. *)
Theorem sum_call_vstack `{Keras} `{Backend T}
    (self : SumMemoryUpdater.t) (x y : tensor T) :
  let D := SumMemoryUpdater.encoding_dim self in
  0 < D -> wf x -> wf y ->
  Z.of_nat (ncols x) = 3 * D -> Z.of_nat (ncols y) = 3 * D ->
  exists ox oy : tensor T,
    SumMemoryUpdater.call self x = Ok ox /\
    SumMemoryUpdater.call self y = Ok oy /\
    SumMemoryUpdater.call self (vstack x y) = Ok (vstack ox oy).
Proof.
  intros D HD Hx Hy Hwx Hwy.
  assert (Hc : ncols x = ncols y) by lia.
  do 2 eexists. split; [by apply sum_call_exact|].
  split; [by apply sum_call_exact|].
  rewrite sum_call_exact; [|done|by apply vstack_wf|done]. fold D.
  rewrite !slice_cols_vstack by done.
  by rewrite add_rows_vstack by (by rewrite !slice_cols_nrows).
Qed.

Lemma sum_call_vstack_witness :
  SumMemoryUpdater.call (H := KerasModel.keras)
    (SumMemoryUpdater.Make KerasModel.keras
       (KerasModel.MkLayer "sum_memory_updater" true) 1 "sum")
    (vstack (Tensor 3%nat [[1; 2; 3]]) (Tensor 3%nat [[4; 5; 6]; [7; 8; 9]])) =
  Ok (Tensor 1%nat [[5]; [11]; [17]]).
Proof.
  destruct (sum_call_vstack (H := KerasModel.keras)
    (SumMemoryUpdater.Make KerasModel.keras
       (KerasModel.MkLayer "sum_memory_updater" true) 1 "sum")
    (Tensor 3%nat [[1; 2; 3]]) (Tensor 3%nat [[4; 5; 6]; [7; 8; 9]]))
    as (ox & oy & Hox & Hoy & Hxy).
  - simpl. lia.
  - repeat constructor.
  - repeat constructor.
  - reflexivity.
  - reflexivity.
  - rewrite Hxy. vm_compute in Hox. vm_compute in Hoy.
    inversion Hox. inversion Hoy. reflexivity.
Defined.

(** ** The dense-concat-no-question updater *)

(** X7: what the dense-concat-no-question updater hands to the dense
    transform is the memory slice followed by the knowledge slice of
    [split_updater_inputs], for every encoding dimension D >= 0 and every
    well-formed input, of any width. *)
Theorem no_question_input_is_memory_knowledge `{Keras} `{Backend T}
    (self : DenseConcatNoQuestionMemoryUpdater.t) (p : dense_params T)
    (x : tensor T) :
  let D := DenseConcatNoQuestionMemoryUpdater.encoding_dim self in
  0 <= D -> wf x ->
  exists q m k : tensor T,
    split_updater_inputs x D = (q, m, k) /\
    slice_cols x (Some D) None = hstack m k /\
    DenseConcatNoQuestionMemoryUpdater.call self p x = Dense_call p (hstack m k).
Proof.
  intros D HD Hwf. unfold split_updater_inputs.
  do 3 eexists. split; [reflexivity|].
  assert (Heq : slice_cols x (Some D) None =
                hstack (slice_cols x (Some D) (Some (2 * D)))
                       (slice_cols x (Some (2 * D)) None)).
  { unfold hstack. rewrite ncols_slice_between, ncols_slice_from by lia.
    unfold slice_cols at 1. rewrite slice_bounds_from by lia. f_equal; [lia|].
    unfold slice_cols; cbn [rows]. apply list_eq. intros i.
    rewrite lookup_zip_with, !list_lookup_fmap.
    destruct (rows x !! i) as [r|]; simpl; [|done]. f_equal.
    rewrite py_slice_between, !py_slice_from by lia.
    replace (Z.to_nat (2 * D) - Z.to_nat D)%nat with (Z.to_nat D) by lia.
    replace (Z.to_nat (2 * D)) with (Z.to_nat D + Z.to_nat D)%nat by lia.
    rewrite <- drop_drop. by rewrite take_drop. }
  split; [exact Heq|].
  unfold DenseConcatNoQuestionMemoryUpdater.call. fold D. by rewrite Heq.
Qed.

Lemma no_question_input_is_memory_knowledge_witness :
  slice_cols (Tensor 6%nat [[1; 2; 3; 4; 5; 6]]) (Some 2) None =
  hstack (Tensor 2%nat [[3; 4]]) (Tensor 2%nat [[5; 6]]).
Proof.
  destruct (no_question_input_is_memory_knowledge (H := KerasModel.keras)
    (DenseConcatNoQuestionMemoryUpdater.Make KerasModel.keras 2
       (KerasModel.MkDense (KerasModel.MkLayer "u" true) 2 "glorot_uniform" "linear"))
    (DenseParams (Tensor 2%nat [[1; 0]; [0; 1]; [0; 0]; [0; 0]]) [0; 0] id)
    (Tensor 6%nat [[1; 2; 3; 4; 5; 6]]))
    as (q & m & k & Hs & Heq & _).
  - simpl. lia.
  - repeat constructor.
  - simpl in Heq. rewrite Heq. vm_compute in Hs. by inversion Hs.
Defined.

(** ** Shape inference on any width *)

(** X8: the shape inference of the three classes is the same function and
    does not look at the encoding dimension of the updater.  For an input
    shape (batch, W) with 0 <= W < 2^53 it keeps the batch entry and
    reports the width w with 3w <= W <= 3w + 2; so it reports a width D
    exactly for the widths 3D, 3D + 1 and 3D + 2. *)
Theorem output_shape_floor `{Keras} {B} (us : SumMemoryUpdater.t)
    (un : DenseConcatNoQuestionMemoryUpdater.t)
    (ud : DenseConcatMemoryUpdater.t) (batch : B) (Wd : Z) :
  0 <= Wd < 2 ^ 53 ->
  exists w : Z,
    SumMemoryUpdater.get_output_shape_for us (batch, Wd) = Ok (batch, w) /\
    DenseConcatNoQuestionMemoryUpdater.get_output_shape_for un (batch, Wd) =
      Ok (batch, w) /\
    DenseConcatMemoryUpdater.get_output_shape_for ud (batch, Wd) =
      Ok (batch, w) /\
    3 * w <= Wd <= 3 * w + 2 /\
    forall D : Z, w = D <-> 3 * D <= Wd <= 3 * D + 2.
Proof.
  intros HW. exists (Wd / 3).
  unfold SumMemoryUpdater.get_output_shape_for,
    DenseConcatNoQuestionMemoryUpdater.get_output_shape_for,
    DenseConcatMemoryUpdater.get_output_shape_for.
  rewrite output_shape_third_floor by done.
  do 3 (split; [reflexivity|]).
  pose proof (Z.div_mod Wd 3) as Hdiv. pose proof (Z.mod_pos_bound Wd 3) as Hmod.
  split; [lia|]. intros D. lia.
Qed.

Lemma output_shape_floor_witness :
  SumMemoryUpdater.get_output_shape_for (H := KerasModel.keras)
    (SumMemoryUpdater.Make KerasModel.keras
       (KerasModel.MkLayer "sum_memory_updater" true) 5 "sum")
    (@None Z, 8) = Ok (None, 2).
Proof.
  destruct (output_shape_floor (H := KerasModel.keras)
    (SumMemoryUpdater.Make KerasModel.keras
       (KerasModel.MkLayer "sum_memory_updater" true) 5 "sum")
    (DenseConcatNoQuestionMemoryUpdater.Make KerasModel.keras 5
       (KerasModel.MkDense (KerasModel.MkLayer "u" true) 5 "glorot_uniform" "linear"))
    (DenseConcatMemoryUpdater.Make KerasModel.keras 5
       (KerasModel.MkDense (KerasModel.MkLayer "u" true) 5 "glorot_uniform" "linear"))
    (@None Z) 8) as (w & Hs & _ & _ & _ & Hw).
  - lia.
  - rewrite Hs. do 2 f_equal. apply Hw. lia.
Defined.

(** From 2^53 on the float quotient is rounded: for the width
    3 * (2^53 + 1) the shape inference reports 2^53. *)
Lemma output_shape_third_rounds :
  output_shape_third (@None Z, 3 * (2 ^ 53 + 1)) = Ok (None, 2 ^ 53).
Proof. vm_compute. reflexivity. Qed.

(** ** Construction followed by serialisation *)

(** X9: a sum updater constructed with the encoding dimension D holds the
    base layer built from the name and the keyword arguments, and its
    configuration is the configuration of that layer with one more entry:
    every entry of the layer's configuration is kept, D is stored under
    [encoding_dim] unless the layer's configuration has an entry of that
    name, and there is no other entry. *)
Theorem sum_init_get_config `{Keras} (D : Z) (name : string)
    (kwargs : gmap string pyval) (u : SumMemoryUpdater.t) :
  SumMemoryUpdater.init D name kwargs = Ok u ->
  Layer_init name kwargs = Ok (SumMemoryUpdater.base u) /\
  (forall k v, Layer_get_config (SumMemoryUpdater.base u) !! k = Some v ->
               SumMemoryUpdater.get_config u !! k = Some v) /\
  (Layer_get_config (SumMemoryUpdater.base u) !! "encoding_dim" = None ->
   SumMemoryUpdater.get_config u !! "encoding_dim" = Some (PInt D)) /\
  (forall k, k <> "encoding_dim" ->
             SumMemoryUpdater.get_config u !! k =
             Layer_get_config (SumMemoryUpdater.base u) !! k).
Proof.
  unfold SumMemoryUpdater.init. intros Hinit.
  destruct (Layer_init name kwargs) as [l|e]; simpl in Hinit; [|done].
  injection Hinit as <-. simpl.
  unfold SumMemoryUpdater.get_config, dict_update; simpl.
  repeat split.
  - intros k v Hk. by apply lookup_union_Some_l.
  - intros Hnone. rewrite lookup_union_r by done. apply lookup_singleton_eq.
  - intros k Hk. destruct (Layer_get_config l !! k) as [v|] eqn:Hl.
    + by apply lookup_union_Some_l.
    + rewrite lookup_union_r by done. by apply lookup_singleton_ne.
Qed.

Lemma sum_init_get_config_witness :
  SumMemoryUpdater.get_config (H := KerasModel.keras)
    (SumMemoryUpdater.Make KerasModel.keras
       (KerasModel.MkLayer "memory" true) 7 "sum") !! "encoding_dim" =
  Some (PInt 7).
Proof.
  assert (Hinit : SumMemoryUpdater.init (H := KerasModel.keras) 7 "memory" ∅ =
                  Ok (SumMemoryUpdater.Make KerasModel.keras
                        (KerasModel.MkLayer "memory" true) 7 "sum"))
    by reflexivity.
  apply (proj1 (proj2 (proj2
    (sum_init_get_config (H := KerasModel.keras) 7 "memory" ∅ _ Hinit)))).
  reflexivity.
Defined.

(** X10: the configuration of a dense-concat-no-question updater is the
    configuration of its [Dense] with one more entry, which reports the
    output width of the [Dense], not the stored encoding dimension: two
    updaters over the same [Dense] have the same configuration whatever
    their encoding dimensions are. *)
Theorem no_question_config_reports_output_dim `{Keras}
    (u : DenseConcatNoQuestionMemoryUpdater.t) :
  (Dense_get_config (DenseConcatNoQuestionMemoryUpdater.dense u) !! "encoding_dim"
     = None ->
   DenseConcatNoQuestionMemoryUpdater.get_config u !! "encoding_dim" =
   Some (PInt (Dense_output_dim (DenseConcatNoQuestionMemoryUpdater.dense u)))) /\
  (forall k, k <> "encoding_dim" ->
     DenseConcatNoQuestionMemoryUpdater.get_config u !! k =
     Dense_get_config (DenseConcatNoQuestionMemoryUpdater.dense u) !! k) /\
  (forall u' : DenseConcatNoQuestionMemoryUpdater.t,
     DenseConcatNoQuestionMemoryUpdater.dense u' =
     DenseConcatNoQuestionMemoryUpdater.dense u ->
     DenseConcatNoQuestionMemoryUpdater.get_config u' =
     DenseConcatNoQuestionMemoryUpdater.get_config u).
Proof.
  unfold DenseConcatNoQuestionMemoryUpdater.get_config, dict_update.
  repeat split.
  - intros Hnone. rewrite lookup_union_r by done. apply lookup_singleton_eq.
  - intros k Hk.
    destruct (Dense_get_config (DenseConcatNoQuestionMemoryUpdater.dense u) !! k)
      as [v|] eqn:Hd.
    + by apply lookup_union_Some_l.
    + rewrite lookup_union_r by done. by apply lookup_singleton_ne.
  - by intros u' ->.
Qed.

Lemma no_question_config_reports_output_dim_witness :
  DenseConcatNoQuestionMemoryUpdater.get_config (H := KerasModel.keras)
    (DenseConcatNoQuestionMemoryUpdater.Make KerasModel.keras 5
       (KerasModel.MkDense (KerasModel.MkLayer "u" true) 2 "glorot_uniform" "linear"))
    !! "encoding_dim" = Some (PInt 2).
Proof.
  apply (proj1 (no_question_config_reports_output_dim (H := KerasModel.keras)
    (DenseConcatNoQuestionMemoryUpdater.Make KerasModel.keras 5
       (KerasModel.MkDense (KerasModel.MkLayer "u" true) 2 "glorot_uniform"
          "linear")))).
  reflexivity.
Defined.

(** ** The registry, read backwards *)

(** X11: the registry is one-to-one: its keys are pairwise different and
    every updater class of the module is registered under exactly one
    key. *)
Theorem updaters_registry_bijective :
  NoDup (od_keys updaters) /\
  forall cls : updater_class,
    exists k : string,
      od_getitem updaters k = Ok cls /\
      forall k' : string, od_getitem updaters k' = Ok cls -> k' = k.
Proof.
  split.
  - unfold updaters; simpl.
    repeat (apply NoDup_cons; split;
            [rewrite ?not_elem_of_cons; repeat split;
             try discriminate; apply not_elem_of_nil|]).
    apply NoDup_nil_2.
  - intros cls.
    exists (match cls with
            | DenseConcatMemoryUpdater => "dense_concat"
            | SumMemoryUpdater => "sum"
            | DenseConcatNoQuestionMemoryUpdater => "dense_concat_no_question"
            end).
    split; [by destruct cls|].
    intros k'. unfold updaters; simpl.
    destruct cls;
      repeat (match goal with
              | |- context [decide (k' = ?s)] => destruct (decide (k' = s))
              end);
      congruence.
Qed.

Lemma updaters_registry_bijective_witness :
  exists k : string, od_getitem updaters k = Ok SumMemoryUpdater /\ k = "sum".
Proof.
  destruct (proj2 updaters_registry_bijective SumMemoryUpdater)
    as (k0 & Hk0 & Huniq).
  exists k0. split; [exact Hk0|]. symmetry. by apply Huniq.
Defined.

(** ** The slice of the dense-concat-no-question updater on any width *)

Lemma py_slice_from_negative {A} (l : list A) (a : Z) :
  a < 0 ->
  py_slice l (Some a) None = drop (Z.to_nat (Z.max (Z.of_nat (length l) + a) 0)) l.
Proof.
  intros Ha. unfold py_slice, slice_bounds, slice_index; simpl.
  destruct (Z.ltb_spec a 0); [|lia].
  replace (a + Z.of_nat (length l)) with (Z.of_nat (length l) + a) by lia.
  apply take_ge. rewrite length_drop. lia.
Qed.

(** X12: the slice [x[:, D:]] that the dense-concat-no-question updater
    takes before the dense transform, on a well-formed input of width W:
    for D >= 0 it drops the first min(D, W) columns, so that it is the
    whole input for D = 0 and is empty for D >= W; for D < 0 it keeps the
    last min(-D, W) columns, that is, it drops the first W - min(-D, W).
    No case raises. *)
Theorem no_question_slice_width {T} (x : tensor T) (D : Z) :
  wf x ->
  let Wd := Z.of_nat (ncols x) in
  let s := slice_cols x (Some D) None in
  wf s /\ nrows s = nrows x /\
  (0 <= D -> Z.of_nat (ncols s) = Wd - Z.min D Wd /\
             forall i j, entry s i j = entry x i (Z.to_nat D + j)) /\
  (D = 0 -> s = x) /\
  (D < 0 -> Z.of_nat (ncols s) = Z.min (- D) Wd /\
            forall i j,
              entry s i j = entry x i (Z.to_nat (Wd - Z.min (- D) Wd) + j)).
Proof.
  intros Hwf Wd s. unfold s, Wd.
  split; [by apply slice_cols_wf|]. split; [apply slice_cols_nrows|].
  split; [|split].
  - intros HD. split.
    + rewrite ncols_slice_from by done. lia.
    + intros i j. by apply entry_slice_from.
  - intros ->. destruct x as [w rs]. unfold slice_cols.
    cbn [ncols rows]. rewrite slice_bounds_from by done. f_equal.
    + simpl. lia.
    + rewrite <- (list_fmap_id rs) at 2. apply Forall_fmap_ext.
      apply Forall_true. intros r. by rewrite py_slice_from.
  - intros HD. split.
    + unfold slice_cols; cbn [ncols].
      unfold slice_bounds, slice_index; simpl.
      destruct (Z.ltb_spec D 0); lia.
    + intros i j. unfold entry. rewrite entry_slice_cols.
      destruct (rows x !! i) as [r|] eqn:Hr; simpl; [|done].
      pose proof (proj1 (Forall_lookup _ _) Hwf _ _ Hr) as Hlen. simpl in Hlen.
      rewrite py_slice_from_negative, lookup_drop, Hlen by done.
      f_equal. lia.
Qed.

Lemma no_question_slice_width_witness :
  slice_cols (Tensor 3%nat [[1; 2; 3]]) (Some 0) None = Tensor 3%nat [[1; 2; 3]] /\
  ncols (slice_cols (Tensor 3%nat [[1; 2; 3]]) (Some (-2)) None) = 2%nat /\
  entry (slice_cols (Tensor 3%nat [[1; 2; 3]]) (Some (-2)) None) 0 0 = Some 2.
Proof.
  split; [|split].
  - apply (proj1 (proj2 (proj2 (proj2
      (no_question_slice_width (Tensor 3%nat [[1; 2; 3]]) 0
         ltac:(repeat constructor))))) eq_refl).
  - pose proof (proj1 (proj2 (proj2 (proj2 (proj2
      (no_question_slice_width (Tensor 3%nat [[1; 2; 3]]) (-2)
         ltac:(repeat constructor))))) ltac:(lia))) as Hw.
    apply Nat2Z.inj. rewrite Hw. reflexivity.
  - rewrite (proj2 (proj2 (proj2 (proj2 (proj2
      (no_question_slice_width (Tensor 3%nat [[1; 2; 3]]) (-2)
         ltac:(repeat constructor))))) ltac:(lia))).
    reflexivity.
Defined.
